(** * Market movement alert scripts: a shallow embedding

    The repository holds seven stand-alone Python scripts that fetch prices,
    compute a percentage change, pick an emoji for it and post to X:

    - [post_btc_chart_hourly.py]   one symbol, gated on a 10% move;
    - [post_btc_chart_weekly.py]   one symbol, always posts;
    - [post_eod_favorites_performance.py], [post_eow_favorites_performance.py],
      [post_eow_mag7_performance.py], [post_eow_cryptostocks_performance.py]
      multi-symbol digests.

    Each script is embedded as a function in a small exception-and-trace
    monad.  The outside world (CoinGecko, QuickChart, yfinance, X, the
    environment, the clock, the file system) enters as a record of oracles,
    so that every theorem quantifies over all of its possible answers.

    Numbers.  Finite Python floats are idealised as exact rationals [Q];
    a division by a zero Python float raises [ZeroDivisionError], which is
    written out.  The digests divide numpy scalars, which do not raise:
    their results live in [f64], rationals extended by the two infinities
    and NaN. *)

From Stdlib Require Import QArith Qround Qabs Lqa DecimalString Ascii String.
From stdpp Require Import base decidable option list strings gmap.

Local Open Scope string_scope.

(** ** Python exceptions, results and the trace monad *)

Inductive ExnClass :=
| Exception | ValueError | RuntimeError | ZeroDivisionError | IndexError
| KeyError | OSError | RequestException.

Global Instance ExnClass_eq_dec : EqDecision ExnClass.
Proof. solve_decision. Defined.

(** An exception object: its class and [str(e)]. *)
Record Exn := mkExn { exn_class : ExnClass; exn_str : string }.

Global Instance Exn_eq_dec : EqDecision Exn.
Proof. solve_decision. Defined.

Inductive result (A : Type) :=
| Ret (a : A)
| Raise (e : Exn).
Arguments Ret {A} a.
Arguments Raise {A} e.

(** A chart request as POSTed to QuickChart: the label format handed to
    [strftime], the instants it is applied to, and the numbers. *)
Record ChartRequest := mkChart {
  chart_title : string;
  chart_label_format : string;
  chart_instants : list Z;
  chart_prices : list Q;
  chart_y_min : Q;
  chart_y_max : Q
}.

(** Everything observable a script does, in order. *)
Inductive Event :=
| Print (line : string)
| HttpGet (url : string) (days : Z)
| HttpPost (url : string) (chart : ChartRequest)
| FileWrite (filename : string)
| LoadDotenv
| MediaUpload (filename : string)
| CreateTweet (text : string) (media_ids : list Z)
| YfDownload (tickers : list string) (period interval : string).

(** The calls that leave the machine for X. *)
Definition is_publish_call (ev : Event) : bool :=
  match ev with
  | MediaUpload _ | CreateTweet _ _ => true
  | _ => false
  end.

Definition is_network_call (ev : Event) : bool :=
  match ev with
  | HttpGet _ _ | HttpPost _ _ | MediaUpload _ | CreateTweet _ _
  | YfDownload _ _ _ => true
  | _ => false
  end.

Definition is_render_call (ev : Event) : bool :=
  match ev with HttpPost _ _ => true | _ => false end.

Definition is_create_tweet (ev : Event) : bool :=
  match ev with CreateTweet _ _ => true | _ => false end.

(** A computation: the events it emitted, and how it ended. *)
Definition M (A : Type) : Type := (list Event * result A)%type.

Definition ret {A} (a : A) : M A := ([], Ret a).
Definition raise {A} (e : Exn) : M A := ([], Raise e).
Definition emit (ev : Event) : M unit := ([ev], Ret tt).
Definition print (line : string) : M unit := emit (Print line).

Definition bind {A B} (m : M A) (k : A -> M B) : M B :=
  match m with
  | (t, Ret a) => let '(t', r) := k a in ((t ++ t')%list, r)
  | (t, Raise e) => (t, Raise e)
  end.

(** [call ev r]: an external call, logged, ending as the oracle says. *)
Definition call {A} (ev : Event) (r : result A) : M A := ([ev], r).

(** [try: m except cls as e: h e]. *)
Definition try_except {A} (catches : ExnClass -> bool) (m : M A)
    (h : Exn -> M A) : M A :=
  match m with
  | (t, Raise e) =>
      if catches (exn_class e) then let '(t', r) := h e in ((t ++ t')%list, r)
      else (t, Raise e)
  | ok => ok
  end.

(** Every class above derives from [Exception]. *)
Definition except_Exception (c : ExnClass) : bool := true.
Definition except_RequestException (c : ExnClass) : bool :=
  bool_decide (c = RequestException).

Declare Scope py_scope.
Delimit Scope py_scope with py.
Notation "x <- m ;; k" := (bind m (fun x => k))
  (at level 100, m at next level, right associativity) : py_scope.
Notation "m ;;; k" := (bind m (fun _ => k))
  (at level 100, right associativity) : py_scope.

Definition trace {A} (m : M A) : list Event := fst m.
Definition outcome {A} (m : M A) : result A := snd m.

Definition returns_normally {A} (m : M A) : Prop :=
  exists a, outcome m = Ret a.

(** ** Formatting numbers as Python does *)

Definition str_of_N (n : N) : string := NilZero.string_of_uint (N.to_uint n).
Definition str_of_nat (n : nat) : string := str_of_N (N.of_nat n).
Definition str_of_Z (z : Z) : string :=
  if (z <? 0)%Z then "-" +:+ str_of_N (Z.to_N (- z)) else str_of_N (Z.to_N z).

(** Nearest integer, ties to the even one. *)
Definition round_half_even (q : Q) : Z :=
  let f := Qfloor q in
  match (q - inject_Z f ?= 1 # 2)%Q with
  | Lt => f
  | Gt => (f + 1)%Z
  | Eq => if Z.even f then f else (f + 1)%Z
  end.

(** [round(x, 2)]. *)
Definition round2 (q : Q) : Q := (inject_Z (round_half_even (q * 100)) / 100)%Q.

(** Digits grouped in threes from the right, as the [,] format option does. *)
Fixpoint group3 (rev_digits : list ascii) (i : nat) : list ascii :=
  match rev_digits with
  | [] => []
  | d :: ds =>
      match i, ds with
      | 2, _ :: _ => d :: ","%char :: group3 ds 0
      | _, _ => d :: group3 ds (S i)
      end
  end.

Definition with_commas (digits : string) : string :=
  string_of_list_ascii (rev (group3 (rev (list_ascii_of_string digits)) 0)).

(** [f"{q:.2f}"] and, with [comma], [f"{q:,.2f}"]. *)
Definition format_2f (comma : bool) (q : Q) : string :=
  let cents := round_half_even (Qabs q * 100) in
  let whole := str_of_N (Z.to_N (cents / 100)) in
  let frac := Z.to_N (cents mod 100) in
  (if Qlt_le_dec q 0 then "-" else "")
  +:+ (if comma then with_commas whole else whole)
  +:+ "." +:+ (if (frac <? 10)%N then "0" else "") +:+ str_of_N frac.

(** [sep.join(parts)]. *)
Fixpoint join (sep : string) (parts : list string) : string :=
  match parts with
  | [] => ""
  | [p] => p
  | p :: ps => p +:+ sep +:+ join sep ps
  end.

Definition nl : string := String (ascii_of_nat 10) "".

Example format_2f_grouping : format_2f true (12345678 # 1000)%Q = "12,345.68".
Proof. vm_compute. reflexivity. Qed.

Example format_2f_negative_zero : format_2f false (-1 # 1000)%Q = "-0.00".
Proof. vm_compute. reflexivity. Qed.

Example format_2f_tie : format_2f false (125 # 1000)%Q = "0.12".
Proof. vm_compute. reflexivity. Qed.

(** ** The movement classifier *)

(** The eleven string literals [get_movement_emoji] can return, by name. *)
Inductive Marker :=
| Dove | Rocket | Zap | ChartUp | ArrowUp
| Hole | Skull | Blood | ChartDown | ArrowDown
| Flat.

Global Instance Marker_eq_dec : EqDecision Marker.
Proof. solve_decision. Defined.

Definition all_markers : list Marker :=
  [Dove; Rocket; Zap; ChartUp; ArrowUp; Hole; Skull; Blood; ChartDown;
   ArrowDown; Flat].

(** The literals of the hourly script and of the four digests (UTF-8). *)
Definition emoji (m : Marker) : string :=
  match m with
  | Dove => "🕊️"
  | Rocket => "🚀"
  | Zap => "⚡"
  | ChartUp => "📈"
  | ArrowUp => "⬆️"
  | Hole => "🕳️"
  | Skull => "☠️"
  | Blood => "🩸"
  | ChartDown => "📉"
  | ArrowDown => "⬇️"
  | Flat => "↔️"
  end.

(** The literals as they are stored in [post_btc_chart_weekly.py]. *)
Definition emoji_weekly (m : Marker) : string :=
  match m with
  | Dove => "ğŸ•Šï¸"
  | Rocket => "ğŸš€"
  | Zap => "âš¡"
  | ChartUp => "ğŸ“ˆ"
  | ArrowUp => "â¬†ï¸"
  | Hole => "ğŸ•³ï¸"
  | Skull => "â˜ ï¸"
  | Blood => "ğŸ©¸"
  | ChartDown => "ğŸ“‰"
  | ArrowDown => "â¬‡ï¸"
  | Flat => "â†”ï¸"
  end.

Definition Qgt_bool (a b : Q) : bool := negb (Qle_bool a b).
Definition Qlt_bool (a b : Q) : bool := negb (Qle_bool b a).

(** The chain of comparisons is the same text in all six scripts; the
    scripts differ in what kind of number reaches it, so the comparisons
    are taken as arguments. *)
Section Classifier.
Context {T : Type} (gt lt : T -> Q -> bool).

Definition get_movement_emoji_on (pct_change : T) : Marker :=
  if gt pct_change 20 then Dove
  else if gt pct_change 15 then Rocket
  else if gt pct_change 10 then Zap
  else if gt pct_change 5 then ChartUp
  else if gt pct_change 1 then ArrowUp
  else if lt pct_change (-20) then Hole
  else if lt pct_change (-15) then Skull
  else if lt pct_change (-10) then Blood
  else if lt pct_change (-5) then ChartDown
  else if lt pct_change (-1) then ArrowDown
  else Flat.
End Classifier.

(** On a finite float. *)
Definition get_movement_emoji (pct_change : Q) : Marker :=
  get_movement_emoji_on Qgt_bool Qlt_bool pct_change.

(** The bands of the design, one per marker. *)
Definition in_band (m : Marker) (p : Q) : Prop :=
  match m with
  | Dove => 20 < p
  | Rocket => 15 < p /\ p <= 20
  | Zap => 10 < p /\ p <= 15
  | ChartUp => 5 < p /\ p <= 10
  | ArrowUp => 1 < p /\ p <= 5
  | Flat => -1 <= p /\ p <= 1
  | ArrowDown => -5 <= p /\ p < -1
  | ChartDown => -10 <= p /\ p < -5
  | Blood => -15 <= p /\ p < -10
  | Skull => -20 <= p /\ p < -15
  | Hole => p < -20
  end%Q.

(** ** Samples, windows and Python list operations *)

(** A [(dt, price)] tuple; [dt] is an instant in microseconds since the
    epoch (aware datetimes compare by instant). *)
Definition Sample : Type := (Z * Q)%type.

(** [[(dt, price) for dt, price in data if dt > since]]. *)
Definition select_window (data : list Sample) (since : Z) : list Sample :=
  List.filter (fun s => (since <? fst s)%Z) data.

(** [list.sort(key=...)] is stable: an element goes in front of the first
    one whose key is not smaller, and behind everything equal that came
    before it. *)
Fixpoint insert_by_key {A} (key : A -> Z) (x : A) (sorted : list A) : list A :=
  match sorted with
  | [] => [x]
  | y :: rest =>
      if (key x <=? key y)%Z then x :: y :: rest
      else y :: insert_by_key key x rest
  end.

Fixpoint sort_by_key {A} (key : A -> Z) (l : list A) : list A :=
  match l with
  | [] => []
  | x :: rest => insert_by_key key x (sort_by_key key rest)
  end.

(** [l[::step]]. *)
Fixpoint stride_from {A} (step skip : nat) (l : list A) : list A :=
  match l with
  | [] => []
  | x :: rest =>
      match skip with
      | O => x :: stride_from step (Nat.pred step) rest
      | S k => stride_from step k rest
      end
  end.

Definition slice_step {A} (step : nat) (l : list A) : list A :=
  stride_from step 0 l.

Definition index_error : Exn := mkExn IndexError "list index out of range".
Definition zero_division_error : Exn :=
  mkExn ZeroDivisionError "float division by zero".

(** [l[0][1]] and [l[-1][1]]. *)
Definition first_price (l : list Sample) : M Q :=
  match l with
  | [] => raise index_error
  | s :: _ => ret (snd s)
  end.

Definition last_price (l : list Sample) : M Q :=
  match List.last (map Some l) None with
  | None => raise index_error
  | Some s => ret (snd s)
  end.

(** [a / b] on Python floats. *)
Definition py_div (a b : Q) : M Q :=
  if Qeq_bool b 0 then raise zero_division_error else ret (a / b)%Q.

(** [min(prices)], [max(prices)] on a non-empty list. *)
Definition py_min (x : Q) (xs : list Q) : Q :=
  fold_left (fun m y => if Qlt_bool y m then y else m) xs x.
Definition py_max (x : Q) (xs : list Q) : Q :=
  fold_left (fun m y => if Qgt_bool y m then y else m) xs x.

(** ** What the two Bitcoin chart scripts share *)

Record Response := mkResponse {
  status_code : Z;
  http_error : string;   (* str of the HTTPError [raise_for_status] builds *)
  text : string;
  json_prices : option (list (Z * Q))  (* [response.json()], key "prices" *)
}.

(** [response.raise_for_status()]. *)
Definition raise_for_status (r : Response) : M unit :=
  if ((400 <=? status_code r) && (status_code r <? 600))%Z
  then raise (mkExn RequestException (http_error r))
  else ret tt.

Record World := mkWorld {
  coingecko : Z -> result Response;
  now_et : Z;
  quickchart : ChartRequest -> result Response;
  write_file : string -> result unit;
  environ : gmap string string;         (* after [load_dotenv()] *)
  media_upload : string -> result Z;
  create_tweet : string -> list Z -> result Z   (* the new tweet's id *)
}.

(** Where the two copies of a function differ. *)
Record Script := mkScript {
  days : Z;
  fetch_banner : string;
  span_name : string;
  label_format : string;
  chart_banner : string;
  title : string
}.

Definition coingecko_url : string :=
  "https://api.coingecko.com/api/v3/coins/bitcoin/market_chart".
Definition quickchart_url : string := "https://quickchart.io/chart".

Definition credential_names : list string :=
  ["API_KEY"; "API_KEY_SECRET"; "ACCESS_TOKEN"; "ACCESS_TOKEN_SECRET"].

(** [not var_value] for the result of [os.getenv]. *)
Definition falsy (v : option string) : bool :=
  match v with
  | None => true
  | Some s => bool_decide (s = "")
  end.

(** The loop that fills [missing_creds] (called [missing] in the digests). *)
Definition missing_creds (env : gmap string string) : list string :=
  List.filter (fun name => falsy (env !! name)) credential_names.

Definition missing_error (missing : list string) : Exn :=
  mkExn ValueError
    ("[ERROR] Missing required credentials in .env: " +:+ join ", " missing).

Section BtcChart.
Variable script : Script.
Variable w : World.
Local Open Scope py_scope.

Definition fetch_btc_data : M (list Sample) :=
  print (fetch_banner script) ;;;
  response <-
    try_except except_RequestException
      (response <- call (HttpGet coingecko_url (days script))
                        (coingecko w (days script)) ;;
       raise_for_status response ;;;
       ret response)
      (fun e => raise (mkExn Exception
         ("[ERROR] Failed to fetch data from CoinGecko: " +:+ exn_str e))) ;;
  match json_prices response with
  | None | Some [] =>
      raise (mkExn Exception
               "[ERROR] CoinGecko response is missing 'prices' data.")
  | Some points =>
      let btc_data :=
        map (fun point : Z * Q => ((fst point * 1000)%Z, snd point)) points in
      print ("[INFO] Successfully retrieved " +:+ str_of_nat (length btc_data)
             +:+ " data points for BTC (" +:+ span_name script +:+ ").") ;;;
      ret btc_data
  end.

Definition generate_chart_image (btc_data : list Sample) (filename : string)
    : M unit :=
  match map (fun s : Sample => round2 (snd s)) btc_data with
  | [] => raise (mkExn ValueError "[ERROR] No BTC data to generate a chart.")
  | p :: ps =>
      print ("[INFO] Generating DARK MODE chart with "
             +:+ str_of_nat (length btc_data) +:+ chart_banner script) ;;;
      let prices := p :: ps in
      let lowest_price := py_min p ps in
      let highest_price := py_max p ps in
      let price_range := (highest_price - lowest_price)%Q in
      let y_min := (lowest_price - price_range * 0.05)%Q in
      let y_max := (highest_price + price_range * 0.05)%Q in
      let chart := mkChart (title script) (label_format script)
                           (map fst btc_data) prices y_min y_max in
      response <-
        try_except except_RequestException
          (response <- call (HttpPost quickchart_url chart)
                            (quickchart w chart) ;;
           (if bool_decide (status_code response = 200%Z) then ret tt
            else print ("[DEBUG] QuickChart response text: "
                        +:+ text response)) ;;;
           raise_for_status response ;;;
           ret response)
          (fun e => raise (mkExn Exception
             ("[ERROR] Failed to generate chart from QuickChart.io: "
              +:+ exn_str e))) ;;
      call (FileWrite filename) (write_file w filename) ;;;
      print ("[INFO] Dark mode chart image saved as '" +:+ filename +:+ "'.")
  end.

Definition post_tweet_with_image (text : string) (image_path : string)
    : M Z :=
  print "[INFO] Attempting to post tweet with image..." ;;;
  emit LoadDotenv ;;;
  let missing := missing_creds (environ w) in
  match missing with
  | _ :: _ => raise (missing_error missing)
  | [] =>
      try_except except_Exception
        (print ("[INFO] Uploading media '" +:+ image_path +:+ "' to X...") ;;;
         media_id <- call (MediaUpload image_path)
                          (media_upload w image_path) ;;
         print ("[INFO] Media upload successful (media_id="
                +:+ str_of_Z media_id +:+ ").") ;;;
         print "[INFO] Creating tweet..." ;;;
         response <- call (CreateTweet text [media_id])
                          (create_tweet w text [media_id]) ;;
         print "[INFO] Tweet creation successful." ;;;
         ret response)
        (fun e => raise (mkExn Exception
           ("[ERROR] Failed to post tweet with image: " +:+ exn_str e)))
  end.
End BtcChart.

(** ** [post_btc_chart_hourly.py] *)

Module Hourly.
Local Open Scope py_scope.

Definition script : Script :=
  mkScript 1 "[INFO] Fetching BTC data (24h) from CoinGecko..." "24h" "%H:%M"
    " data points (last hour) using QuickChart.io..."
    "BTC Price (Last Hour)".

Definition hour_us : Z := 3600000000.

(** Lines 243 to 247: latest price, difference, percentage. *)
Definition price_stats (btc_data_1h : list Sample) : M (Q * Q * Q) :=
  earliest_price <- first_price btc_data_1h ;;
  latest_price <- last_price btc_data_1h ;;
  let price_diff := (latest_price - earliest_price)%Q in
  ratio <- py_div price_diff earliest_price ;;
  ret (latest_price, price_diff, (ratio * 100)%Q).

Definition tweet_text (latest_price price_diff pct_change : Q) : string :=
  "BITCOIN MAKING MOVES" +:+ nl +:+ nl
  +:+ "BTC IS NOW: $" +:+ format_2f true latest_price +:+ " "
  +:+ emoji (get_movement_emoji pct_change) +:+ nl +:+ nl
  +:+ "1H CHANGE: " +:+ nl +:+ format_2f true price_diff +:+ " USD " +:+ nl
  +:+ "(" +:+ format_2f true pct_change +:+ "%)" +:+ nl +:+ nl
  +:+ "#Bitcoin #BTC #Crypto".

(** Steps 5 to 8, reached only past the threshold. *)
Definition render_and_post (w : World) (btc_data_1h : list Sample)
    (latest_price price_diff pct_change : Q) : M unit :=
  generate_chart_image script w btc_data_1h "chart.png" ;;;
  let text := tweet_text latest_price price_diff pct_change in
  print "[INFO] Posting tweet with hourly BTC data..." ;;;
  tweet_id <- post_tweet_with_image w text "chart.png" ;;
  print "[SUCCESS] Tweet posted successfully!" ;;;
  print ("[INFO] Tweet ID: " +:+ str_of_Z tweet_id).

(** Steps 3 and 4 on the filtered list, once it has two points. *)
Definition evaluate (w : World) (window : list Sample) : M unit :=
  let btc_data_1h := sort_by_key fst window in
  stats <- price_stats btc_data_1h ;;
  let '(latest_price, price_diff, pct_change) := stats in
  if Qlt_bool (Qabs pct_change) 10 then
    print ("[INFO] Movement is only " +:+ format_2f false pct_change
           +:+ "%. Less than 10%. Skipping post.")
  else
    print ("[INFO] Price moved " +:+ format_2f false pct_change
           +:+ "% in the last hour. Proceeding with tweet...") ;;;
    render_and_post w btc_data_1h latest_price price_diff pct_change.

Definition not_enough : string :=
  "[INFO] Not enough data points in the last hour to calculate change. Exiting.".

Definition main (w : World) : M unit :=
  try_except except_Exception
    (full_day_data <- fetch_btc_data script w ;;
     let one_hour_ago := (now_et w - hour_us)%Z in
     let btc_data_1h := select_window full_day_data one_hour_ago in
     if (length btc_data_1h <? 2)%nat then print not_enough
     else evaluate w btc_data_1h)
    (fun e => print (exn_str e)).
End Hourly.

(** ** [post_btc_chart_weekly.py] *)

Module Weekly.
Local Open Scope py_scope.

Definition script : Script :=
  mkScript 7 "[INFO] Fetching BTC data from CoinGecko..." "7 days"
    "%m-%d %H:%M" " data points using QuickChart.io..."
    "BTC Price (Last 7 Days)".

(** Step C.  The percentage is [0] when the earliest price is falsy. *)
Definition price_stats (btc_data : list Sample) : M (Q * Q * Q) :=
  latest_price <- last_price btc_data ;;
  earliest_price <- first_price btc_data ;;
  let price_diff := (latest_price - earliest_price)%Q in
  pct_change <-
    (if Qeq_bool earliest_price 0 then ret 0%Q
     else ratio <- py_div price_diff earliest_price ;; ret (ratio * 100)%Q) ;;
  ret (latest_price, price_diff, pct_change).

Definition tweet_text (latest_price price_diff pct_change : Q) : string :=
  "BITCOIN IS NOW: $" +:+ format_2f true latest_price +:+ " "
  +:+ emoji_weekly (get_movement_emoji pct_change) +:+ nl +:+ nl
  +:+ "7D CHANGE: " +:+ nl +:+ "$" +:+ format_2f true price_diff +:+ " " +:+ nl
  +:+ "(" +:+ format_2f true pct_change +:+ "%)" +:+ nl +:+ nl
  +:+ "$BTC #Bitcoin #Crypto".

(** Steps B to F, on what [fetch_btc_data] returned. *)
Definition report (w : World) (fetched : list Sample) : M unit :=
  let btc_data := slice_step 5 fetched in
  print ("[INFO] Downsampled data to " +:+ str_of_nat (length btc_data)
         +:+ " points.") ;;;
  stats <- price_stats btc_data ;;
  let '(latest_price, price_diff, pct_change) := stats in
  let chart_filename := "chart.png" in
  generate_chart_image script w btc_data chart_filename ;;;
  let text := tweet_text latest_price price_diff pct_change in
  print "[INFO] Posting tweet with weekly BTC price chart..." ;;;
  tweet_id <- post_tweet_with_image w text chart_filename ;;
  print "[SUCCESS] Tweet posted successfully!" ;;;
  print ("[INFO] Tweet ID: " +:+ str_of_Z tweet_id).

Definition main (w : World) : M unit :=
  try_except except_Exception
    (btc_data <- fetch_btc_data script w ;;
     report w btc_data)
    (fun e => print (exn_str e)).
End Weekly.

(** ** The four performance digests *)

Module Digest.
Local Open Scope py_scope.

(** A numpy [float64]: division by zero gives an infinity or NaN and a
    warning, not an exception. *)
Inductive f64 :=
| Fin (q : Q)
| PInf
| NInf
| NaN.

Definition np_div (a b : Q) : f64 :=
  if Qeq_bool b 0 then
    if Qgt_bool a 0 then PInf else if Qlt_bool a 0 then NInf else NaN
  else Fin (a / b).

Definition np_mul (x : f64) (k : Q) : f64 :=
  match x with
  | Fin q => Fin (q * k)
  | other => other
  end.

Definition f64_gt (x : f64) (k : Q) : bool :=
  match x with
  | Fin q => Qgt_bool q k
  | PInf => true
  | NInf | NaN => false
  end.

Definition f64_lt (x : f64) (k : Q) : bool :=
  match x with
  | Fin q => Qlt_bool q k
  | NInf => true
  | PInf | NaN => false
  end.

Definition f64_ge (x : f64) (k : Q) : bool :=
  match x with
  | Fin q => Qle_bool k q
  | PInf => true
  | NInf | NaN => false
  end.

Definition f64_format_2f (x : f64) : string :=
  match x with
  | Fin q => format_2f false q
  | PInf => "inf"
  | NInf => "-inf"
  | NaN => "nan"
  end.

Definition get_movement_emoji (pct_change : f64) : Marker :=
  get_movement_emoji_on f64_gt f64_lt pct_change.

(** One value of the [performance] dict. *)
Record Info := mkInfo { close : Q; pct_change : f64 }.

(** The frame [yf.download] returns, by ticker: the rows in date order,
    [Some close] for a complete row and [None] for one holding a NaN,
    which [dropna()] removes. *)
Abbreviation DataFrame := (gmap string (list (option Q))).

Record World := mkWorld {
  yf_download : list string -> string -> string -> result DataFrame;
  environ : gmap string string;       (* after [load_dotenv()] *)
  create_tweet : string -> result Z   (* the new tweet's id *)
}.

(** Where the four copies differ. *)
Record Script := mkScript {
  TICKERS : list string;
  period : string;
  interval : string;
  no_data_banner : string;
  no_data_prefix : string;
  header : string;
  hashtags : string
}.

Definition dropna (rows : list (option Q)) : list Q := omap id rows.

(** [.tail(2)]. *)
Definition tail2 {A} (l : list A) : list A := drop (length l - 2) l.

(** The body of the [for] loop of the fetch function, [except: pass]
    included: what, if anything, it stores under [ticker]. *)
Definition ticker_performance (df : DataFrame) (ticker : string)
    : option Info :=
  match df !! ticker with
  | None => None                         (* KeyError, swallowed *)
  | Some rows =>
      match tail2 (dropna rows) with
      | [close_before; close_now] =>
          Some (mkInfo close_now
                  (np_mul (np_div (close_now - close_before) close_before)
                          100))
      | _ => None                        (* fewer than 2 rows: continue *)
      end
  end.

Definition fill_performance (df : DataFrame) (tickers : list string)
    : gmap string Info :=
  fold_left
    (fun performance ticker =>
       match ticker_performance df ticker with
       | Some info => <[ticker := info]> performance
       | None => performance
       end)
    tickers ∅.

(** [fetch_eod_performance] and [fetch_weekly_performance]. *)
Definition fetch_performance (s : Script) (w : World) (tickers : list string)
    : M (gmap string Info) :=
  df <- call (YfDownload tickers (period s) (interval s))
             (yf_download w tickers (period s) (interval s)) ;;
  ret (fill_performance df tickers).

Definition post_tweet (w : World) (text : string) : M Z :=
  print "[INFO] Attempting to post a text-only tweet..." ;;;
  emit LoadDotenv ;;;
  let missing := missing_creds (environ w) in
  match missing with
  | _ :: _ => raise (missing_error missing)
  | [] =>
      try_except except_Exception
        (print "[INFO] Creating tweet with v2 client..." ;;;
         response <- call (CreateTweet text []) (create_tweet w text) ;;
         print "[INFO] Tweet creation successful." ;;;
         ret response)
        (fun e => raise (mkExn RuntimeError
           ("[ERROR] Failed to post tweet: " +:+ exn_str e)))
  end.

(** One iteration of the loop that builds [lines]. *)
Definition line_for (s : Script) (perf_data : gmap string Info)
    (ticker : string) : string :=
  match perf_data !! ticker with
  | Some info =>
      let sign := if f64_ge (pct_change info) 0 then "+" else "" in
      "$" +:+ ticker +:+ ": $" +:+ format_2f false (close info)
      +:+ " (" +:+ sign +:+ f64_format_2f (pct_change info) +:+ "%) "
      +:+ emoji (get_movement_emoji (pct_change info))
  | None => no_data_prefix s +:+ ticker +:+ ": No Data"
  end.

Definition build_lines (s : Script) (perf_data : gmap string Info)
    : list string :=
  map (line_for s perf_data) (TICKERS s).

Definition tweet_text (s : Script) (lines : list string) : string :=
  header s +:+ nl +:+ nl +:+ join nl lines +:+ nl +:+ nl +:+ hashtags s.

Definition main (s : Script) (w : World) : M unit :=
  perf_data <- fetch_performance s w (TICKERS s) ;;
  if decide (perf_data = ∅) then print (no_data_banner s)
  else
    let lines := build_lines s perf_data in
    let text := tweet_text s lines in
    try_except except_Exception
      (tweet_id <- post_tweet w text ;;
       print "[SUCCESS] Tweet posted successfully!" ;;;
       print ("[INFO] Tweet ID: " +:+ str_of_Z tweet_id))
      (fun e => print (exn_str e)).

Definition favorites : list string :=
  ["SPY"; "QQQ"; "AMZN"; "GOOG"; "NVDA"; "TSLA"; "HOOD"; "COIN"; "HIMS"].

Definition eod_favorites : Script :=
  mkScript favorites "5d" "1d"
    "[INFO] No performance data fetched (possibly a holiday or no new data)."
    "" "EOD PERFORMANCE" "#Stocks #Investing".

Definition eow_favorites : Script :=
  mkScript favorites "2mo" "1wk"
    "[INFO] No weekly performance data found (possibly not enough data or a newly listed ticker)."
    "$" "WEEKLY PERFORMANCE" "#TrumpTariffs #StockMarketCrash".

Definition eow_mag7 : Script :=
  mkScript ["MSFT"; "AAPL"; "GOOGL"; "AMZN"; "NVDA"; "META"; "TSLA"]
    "2mo" "1wk"
    "[INFO] No weekly performance data found (maybe not enough data?)."
    "$" "WEEKLY PERFORMANCE (MAG 7)" "#TrumpTariffs #Stocks #Investing".

Definition eow_cryptostocks : Script :=
  mkScript ["MSTR"; "COIN"; "RIOT"; "MARA"; "BTC-USD"; "ETH-USD"; "SOL-USD"]
    "3mo" "1wk"
    "[INFO] No weekly performance data found (maybe not enough data?)."
    "" "WEEKLY PERFORMANCE (Crypto-Related)" "#STOCKS #CRYPTO".

Definition scripts : list Script :=
  [eod_favorites; eow_favorites; eow_mag7; eow_cryptostocks].
End Digest.

(** ** [post_hello_world.py] *)

Module HelloWorld.
Local Open Scope py_scope.

Record World := mkWorld {
  environ : gmap string string;              (* after [load_dotenv()] *)
  create_tweet : string -> result (option Z) (* [response.data], key "id" *)
}.

(** [all([api_key, api_key_secret, access_token, access_token_secret])]. *)
Definition all_credentials (env : gmap string string) : bool :=
  forallb (fun name => negb (falsy (env !! name))) credential_names.

Definition main (w : World) : M unit :=
  emit LoadDotenv ;;;
  if all_credentials (environ w) then
    try_except except_Exception
      (response <- call (CreateTweet "Hello World!" [])
                        (create_tweet w "Hello World!") ;;
       print "Tweet posted successfully!" ;;;
       match response with
       | Some tweet_id => print ("Tweet ID: " +:+ str_of_Z tweet_id)
       | None => raise (mkExn KeyError "'id'")
       end)
      (fun e => print ("Error posting tweet: " +:+ exn_str e))
  else
    raise (mkExn ValueError "Missing one or more required credentials in .env").
End HelloWorld.

(** ** Predicates used in the statements *)

(** Ascending by timestamp: each instant is at most the next one. *)
Fixpoint ascending (l : list Sample) : bool :=
  match l with
  | a :: (b :: _) as rest => (fst a <=? fst b)%Z && ascending rest
  | _ => true
  end.

(** No event of the trace satisfies [p]. *)
Definition never (p : Event -> bool) (t : list Event) : Prop :=
  List.filter p t = [].

(** How many events of the trace satisfy [p]. *)
Definition count (p : Event -> bool) (t : list Event) : nat :=
  length (List.filter p t).

(** What [except Exception as e: print(e)] adds to the trace of [body]. *)
Definition caught (body : M unit) : list Event :=
  match outcome body with
  | Ret _ => []
  | Raise e => [Print (exn_str e)]
  end.

Definition is_http_get (ev : Event) : bool :=
  match ev with HttpGet _ _ => true | _ => false end.

Definition is_file_write (ev : Event) : bool :=
  match ev with FileWrite _ => true | _ => false end.

Definition is_media_upload (ev : Event) : bool :=
  match ev with MediaUpload _ => true | _ => false end.

Definition is_download (ev : Event) : bool :=
  match ev with YfDownload _ _ _ => true | _ => false end.

(** The kinds of call a script makes to the outside. *)
Inductive Call :=
| GetPrices | GetChart | WriteChart | UploadMedia | PostTweet | DownloadFrame.

Definition call_kind (ev : Event) : option Call :=
  match ev with
  | HttpGet _ _ => Some GetPrices
  | HttpPost _ _ => Some GetChart
  | FileWrite _ => Some WriteChart
  | MediaUpload _ => Some UploadMedia
  | CreateTweet _ _ => Some PostTweet
  | YfDownload _ _ _ => Some DownloadFrame
  | Print _ | LoadDotenv => None
  end.

(** The calls of a trace, in the order they were made. *)
Definition external_calls (t : list Event) : list Call := omap call_kind t.

(** The calls of a complete run of a chart script. *)
Definition chart_run_calls : list Call :=
  [GetPrices; GetChart; WriteChart; UploadMedia; PostTweet].

(** The marker of the opposite move. *)
Definition mirror (m : Marker) : Marker :=
  match m with
  | Dove => Hole | Rocket => Skull | Zap => Blood
  | ChartUp => ChartDown | ArrowUp => ArrowDown
  | Flat => Flat
  | ArrowDown => ArrowUp | ChartDown => ChartUp
  | Blood => Zap | Skull => Rocket | Hole => Dove
  end.

(** The markers from the deepest fall to the steepest rise. *)
Definition tier (m : Marker) : Z :=
  match m with
  | Hole => -5 | Skull => -4 | Blood => -3 | ChartDown => -2 | ArrowDown => -1
  | Flat => 0
  | ArrowUp => 1 | ChartUp => 2 | Zap => 3 | Rocket => 4 | Dove => 5
  end.

(** The request [generate_chart_image] sends for a series, if it sends one. *)
Definition chart_request (s : Script) (btc_data : list Sample)
    : option ChartRequest :=
  match map (fun sample : Sample => round2 (snd sample)) btc_data with
  | [] => None
  | p :: ps =>
      let lowest_price := py_min p ps in
      let highest_price := py_max p ps in
      let price_range := (highest_price - lowest_price)%Q in
      Some (mkChart (title s) (label_format s) (map fst btc_data) (p :: ps)
              (lowest_price - price_range * 0.05)%Q
              (highest_price + price_range * 0.05)%Q)
  end.

(** The response is one [raise_for_status] accepts. *)
Definition status_ok (r : Response) : bool :=
  negb ((400 <=? status_code r) && (status_code r <? 600))%Z.

(** ** Concrete inputs *)

Definition full_env : gmap string string :=
  list_to_map [("API_KEY", "k"); ("API_KEY_SECRET", "ks");
               ("ACCESS_TOKEN", "t"); ("ACCESS_TOKEN_SECRET", "ts")].

(** [API_KEY] unset, [API_KEY_SECRET] set to the empty string. *)
Definition partial_env : gmap string string :=
  list_to_map [("API_KEY_SECRET", ""); ("ACCESS_TOKEN", "t");
               ("ACCESS_TOKEN_SECRET", "ts")].

Definition ok_response (points : option (list (Z * Q))) : Response :=
  mkResponse 200 "" "" points.

(** A world where every service answers: CoinGecko with [points]
    (milliseconds, price), the clock reads 01:01:40 after the epoch. *)
Definition world_with (points : list (Z * Q)) (env : gmap string string)
    : World :=
  mkWorld (fun _ => Ret (ok_response (Some points))) 3700000000
          (fun _ => Ret (ok_response None)) (fun _ => Ret tt) env
          (fun _ => Ret 7%Z) (fun _ _ => Ret 42%Z).

Definition series_rising : list (Z * Q) :=
  [(0%Z, 90%Q); (200000%Z, 100%Q); (3000000%Z, 112%Q)].
Definition series_quiet : list (Z * Q) :=
  [(0%Z, 90%Q); (200000%Z, 100%Q); (3000000%Z, 103%Q)].
Definition series_ten : list (Z * Q) :=
  [(0%Z, 90%Q); (200000%Z, 100%Q); (3000000%Z, 110%Q)].
Definition series_from_zero : list (Z * Q) :=
  [(200000%Z, 0%Q); (3000000%Z, 5%Q)].
Definition series_single : list (Z * Q) := [(3000000%Z, 100%Q)].
Definition series_pair : list (Z * Q) := [(0%Z, 100%Q); (3600000%Z, 112%Q)].

Definition series_week_from_zero : list (Z * Q) :=
  [(0%Z, 0%Q); (1%Z, 1%Q); (2%Z, 2%Q); (3%Z, 3%Q); (4%Z, 4%Q); (5%Z, 5%Q)].

(** Two complete rows for SPY, one for QQQ, a NaN row and two complete
    ones for AMZN, nothing for the other tickers. *)
Definition frame_mixed : gmap string (list (option Q)) :=
  list_to_map [("SPY", [Some 100%Q; Some 101%Q]);
               ("QQQ", [Some 50%Q]);
               ("AMZN", [None; Some 10%Q; Some 9%Q])].

Definition download_error : Exn :=
  mkExn RequestException "Connection aborted.".

Definition digest_world (download : result (gmap string (list (option Q))))
    (env : gmap string string) : Digest.World :=
  Digest.mkWorld (fun _ _ _ => download) env (fun _ => Ret 43%Z).


(** CoinGecko unreachable, or answering 429, or answering without prices. *)
Definition world_fetch (answer : result Response) : World :=
  mkWorld (fun _ => answer) 3700000000
          (fun _ => Ret (ok_response None)) (fun _ => Ret tt) full_env
          (fun _ => Ret 7%Z) (fun _ _ => Ret 42%Z).

(** Every service but the chart one, X's upload or X's tweet creation
    answers. *)
Definition world_services (chart : result Response) (upload : result Z)
    (tweet : result Z) : World :=
  mkWorld (fun _ => Ret (ok_response (Some series_rising))) 3700000000
          (fun _ => chart) (fun _ => Ret tt) full_env
          (fun _ => upload) (fun _ _ => tweet).

Definition too_many_requests : Response :=
  mkResponse 429 "429 Client Error: Too Many Requests" "Throttled" None.

Definition timeout_error : Exn := mkExn RequestException "Read timed out.".

(** The four credentials set, the last one to the empty string. *)
Definition empty_secret_env : gmap string string :=
  list_to_map [("API_KEY", "k"); ("API_KEY_SECRET", "ks");
               ("ACCESS_TOKEN", "t"); ("ACCESS_TOKEN_SECRET", "")].

(** The second line of the end-of-day digest on [frame_mixed]. *)
Definition build_lines_second_line : string :=
  match Digest.build_lines Digest.eod_favorites
          (Digest.fill_performance frame_mixed Digest.favorites) with
  | _ :: line :: _ => line
  | _ => ""
  end.

Definition samples_ascending : list Sample :=
  [(10%Z, 100%Q); (20%Z, 101%Q); (30%Z, 103%Q)].

(** * Properties *)

(** ** Comparisons on rationals *)

Lemma Qgt_bool_true a b : Qgt_bool a b = true <-> (b < a)%Q.
Proof.
  unfold Qgt_bool. rewrite negb_true_iff.
  split.
  - intros H. apply Qnot_le_lt. intros Hle.
    apply Qle_bool_iff in Hle. congruence.
  - intros H. destruct (Qle_bool a b) eqn:E; [|reflexivity].
    apply Qle_bool_iff in E. exfalso. exact (Qlt_not_le _ _ H E).
Qed.

Lemma Qgt_bool_false a b : Qgt_bool a b = false <-> (a <= b)%Q.
Proof.
  unfold Qgt_bool. rewrite negb_false_iff. apply Qle_bool_iff.
Qed.

Lemma Qlt_bool_true a b : Qlt_bool a b = true <-> (a < b)%Q.
Proof. apply Qgt_bool_true. Qed.

Lemma Qlt_bool_false a b : Qlt_bool a b = false <-> (b <= a)%Q.
Proof. apply Qgt_bool_false. Qed.

(** ** The classifier *)

Lemma get_movement_emoji_in_band p : in_band (get_movement_emoji p) p.
Proof.
  unfold get_movement_emoji, get_movement_emoji_on.
  repeat match goal with
  | |- context [if Qgt_bool ?a ?b then _ else _] =>
      let E := fresh "E" in
      destruct (Qgt_bool a b) eqn:E;
      [apply Qgt_bool_true in E | apply Qgt_bool_false in E]
  | |- context [if Qlt_bool ?a ?b then _ else _] =>
      let E := fresh "E" in
      destruct (Qlt_bool a b) eqn:E;
      [apply Qlt_bool_true in E | apply Qlt_bool_false in E]
  end; simpl; try split; try assumption.
Qed.

Lemma in_band_disjoint m m' p : in_band m p -> in_band m' p -> m = m'.
Proof.
  destruct m, m'; simpl; intros Hm Hm'; try reflexivity; exfalso;
    destruct_and?; lra.
Qed.

Lemma emoji_injective m m' : emoji m = emoji m' -> m = m'.
Proof. destruct m, m'; simpl; intros H; try reflexivity; discriminate H. Qed.

Lemma emoji_weekly_injective m m' : emoji_weekly m = emoji_weekly m' -> m = m'.
Proof. destruct m, m'; simpl; intros H; try reflexivity; discriminate H. Qed.

Lemma all_markers_distinct_under (f : Marker -> string) :
  (forall m m', f m = f m' -> m = m') -> NoDup (map f all_markers).
Proof.
  intros Hinj. apply NoDup_fmap_2; [intros m m'; apply Hinj|].
  unfold all_markers. repeat (apply NoDup_cons; split);
    [rewrite ?not_elem_of_cons; repeat split;
       solve [discriminate | apply not_elem_of_nil].. | apply NoDup_nil_2].
Qed.

(** C6.  The classifier is total and lands in exactly one band: for every
    rational percentage the marker it returns is the one whose band (outer
    bound excluded, inner bound included, flat band closed) holds the
    percentage, and no other band does; the eleven markers are eleven
    different strings; 20 falls in (15,20], -20 in [-20,-15), and 1 and -1
    in the flat band. *)
Theorem C6_classifier_total_bands :
  (forall p : Q,
      in_band (get_movement_emoji p) p
      /\ forall m, in_band m p <-> m = get_movement_emoji p)
  /\ length all_markers = 11%nat
  /\ (forall m, In m all_markers)
  /\ NoDup (map emoji all_markers)
  /\ NoDup (map emoji_weekly all_markers)
  /\ get_movement_emoji 20 = Rocket
  /\ get_movement_emoji (-20) = Skull
  /\ get_movement_emoji 1 = Flat
  /\ get_movement_emoji (-1) = Flat.
Proof.
  split; [|repeat split].
  - intros p. split; [apply get_movement_emoji_in_band|].
    intros m. split.
    + intros H. eapply in_band_disjoint; [exact H|].
      apply get_movement_emoji_in_band.
    + intros ->. apply get_movement_emoji_in_band.
  - intros m. destruct m; simpl; tauto.
  - apply all_markers_distinct_under, emoji_injective.
  - apply all_markers_distinct_under, emoji_weekly_injective.
Qed.

(** ** Window selection *)




Lemma filter_sublist {A} (f : A -> bool) (l : list A) :
  List.filter f l `sublist_of` l.
Proof.
  induction l as [|a l IH]; simpl; [constructor|].
  destruct (f a); constructor; exact IH.
Qed.



(** ** The trace monad *)

Lemma M_eta {A} (m : M A) : m = (trace m, outcome m).
Proof. destruct m; reflexivity. Qed.

Lemma bind_trace {A B} (m : M A) (k : A -> M B) :
  trace (bind m k)
  = (trace m ++ match outcome m with
                | Ret a => trace (k a)
                | Raise _ => []
                end)%list.
Proof.
  destruct m as [t [a|e]]; simpl.
  - destruct (k a); reflexivity.
  - symmetry. apply app_nil_r.
Qed.

Lemma bind_returned {A B} t a (k : A -> M B) :
  bind (t, Ret a) k = ((t ++ trace (k a))%list, outcome (k a)).
Proof. simpl. destruct (k a); reflexivity. Qed.

(** What [try: body except Exception as e: print(e)] comes to: whatever
    the body did, then the message if it raised; it never raises. *)
Lemma try_print_all (body : M unit) :
  try_except except_Exception body (fun e => print (exn_str e))
  = ((trace body ++ match outcome body with
                    | Ret _ => []
                    | Raise e => [Print (exn_str e)]
                    end)%list, Ret tt).
Proof.
  destruct body as [t [[]|e]]; simpl; [rewrite app_nil_r|]; reflexivity.
Qed.

Lemma never_app p t1 t2 : never p (t1 ++ t2) <-> never p t1 /\ never p t2.
Proof.
  unfold never. rewrite List.filter_app. split.
  - intros H. apply app_eq_nil in H. exact H.
  - intros [-> ->]. reflexivity.
Qed.

Lemma count_app p t1 t2 : count p (t1 ++ t2) = (count p t1 + count p t2)%nat.
Proof. unfold count. rewrite List.filter_app. apply length_app. Qed.

Lemma never_count p t : never p t <-> count p t = 0%nat.
Proof.
  unfold never, count. split; [intros ->; reflexivity|].
  destruct (List.filter p t); [reflexivity|discriminate].
Qed.

(** ** What the helpers can and cannot emit *)

(** Fetching talks to CoinGecko only. *)
Lemma fetch_btc_data_quiet s w p :
  (forall l, p (Print l) = false) -> (forall u d, p (HttpGet u d) = false) ->
  never p (trace (fetch_btc_data s w)).
Proof.
  intros Hl Hg. unfold never, fetch_btc_data, call, raise_for_status.
  destruct (coingecko w (days s)) as [r|e]; simpl.
  - destruct (_ && _); simpl.
    + rewrite Hl, Hg. reflexivity.
    + destruct (json_prices r) as [[|pt pts]|]; simpl;
        rewrite ?Hg, ?Hl; reflexivity.
  - destruct (except_RequestException _); simpl;
      rewrite ?Hg, ?Hl; reflexivity.
Qed.

Lemma fetch_btc_data_no_render s w :
  never is_render_call (trace (fetch_btc_data s w)).
Proof. apply fetch_btc_data_quiet; reflexivity. Qed.

Lemma fetch_btc_data_no_publish s w :
  never is_publish_call (trace (fetch_btc_data s w)).
Proof. apply fetch_btc_data_quiet; reflexivity. Qed.

(** What [fetch_btc_data] returns is never empty. *)
Lemma fetch_btc_data_nonempty s w data :
  outcome (fetch_btc_data s w) = Ret data -> data <> [].
Proof.
  unfold fetch_btc_data, call, raise_for_status.
  destruct (coingecko w (days s)) as [r|e]; simpl.
  - destruct (_ && _); simpl; [discriminate|].
    destruct (json_prices r) as [[|pt pts]|]; simpl; try discriminate.
    intros [= <-]. discriminate.
  - destruct (except_RequestException _); simpl; discriminate.
Qed.

(** The change computation emits nothing. *)
Lemma hourly_price_stats_trace l : trace (Hourly.price_stats l) = [].
Proof.
  unfold Hourly.price_stats.
  destruct l as [|s l]; [reflexivity|].
  unfold last_price. destruct (List.last _ _) as [s'|]; [|reflexivity].
  simpl. unfold py_div. destruct (Qeq_bool _ 0); reflexivity.
Qed.

Lemma bind_pure {A B} (a : A) (k : A -> M B) : bind ([], Ret a) k = k a.
Proof. simpl. destruct (k a); reflexivity. Qed.

Lemma last_cons_default {A} (x d : A) l : List.last (x :: l) d = List.last l x.
Proof.
  revert x d. induction l as [|y l IH]; intros x d; [reflexivity|].
  change (List.last (x :: y :: l) d) with (List.last (y :: l) d).
  rewrite (IH y d), (IH y x). reflexivity.
Qed.

Lemma last_price_cons s l : last_price (s :: l) = ret (snd (List.last l s)).
Proof.
  unfold last_price.
  assert (H : List.last (map Some (s :: l)) None = Some (List.last l s)).
  { revert s. induction l as [|y l IH]; intros s; [reflexivity|].
    change (List.last (map Some (s :: y :: l)) None)
      with (List.last (map Some (y :: l)) None).
    rewrite IH, last_cons_default. reflexivity. }
  rewrite H. reflexivity.
Qed.



(** ** The hourly script, step by step *)

Lemma hourly_main_fetched w tf data :
  fetch_btc_data Hourly.script w = (tf, Ret data) ->
  let window := select_window data (now_et w - Hourly.hour_us) in
  let body := if (length window <? 2)%nat then print Hourly.not_enough
              else Hourly.evaluate w window in
  Hourly.main w = ((tf ++ trace body ++ caught body)%list, Ret tt).
Proof.
  intros Hf window body. unfold Hourly.main.
  rewrite try_print_all, Hf, bind_returned. fold window. fold body.
  unfold caught. simpl. rewrite app_assoc. reflexivity.
Qed.

Lemma hourly_evaluate_stats w window latest diff pct :
  outcome (Hourly.price_stats (sort_by_key fst window))
    = Ret (latest, diff, pct) ->
  Hourly.evaluate w window
  = if Qlt_bool (Qabs pct) 10 then
      print ("[INFO] Movement is only " +:+ format_2f false pct
             +:+ "%. Less than 10%. Skipping post.")
    else
      bind (print ("[INFO] Price moved " +:+ format_2f false pct
                   +:+ "% in the last hour. Proceeding with tweet..."))
           (fun _ => Hourly.render_and_post w (sort_by_key fst window)
                       latest diff pct).
Proof.
  intros Hs. unfold Hourly.evaluate.
  rewrite (M_eta (Hourly.price_stats _)), hourly_price_stats_trace, Hs.
  rewrite bind_pure. reflexivity.
Qed.

Lemma hourly_evaluate_raises w window e :
  outcome (Hourly.price_stats (sort_by_key fst window)) = Raise e ->
  Hourly.evaluate w window = ([], Raise e).
Proof.
  intros Hs. unfold Hourly.evaluate.
  rewrite (M_eta (Hourly.price_stats _)), hourly_price_stats_trace, Hs.
  reflexivity.
Qed.

Lemma hourly_price_stats_zero t0 p0 rest :
  (p0 == 0)%Q ->
  Hourly.price_stats ((t0, p0) :: rest) = ([], Raise zero_division_error).
Proof.
  intros Hz. unfold Hourly.price_stats.
  rewrite last_price_cons. simpl. unfold py_div.
  apply Qeq_bool_iff in Hz. rewrite Hz. reflexivity.
Qed.

Lemma weekly_price_stats_zero t0 p0 rest :
  (p0 == 0)%Q ->
  let latest := snd (List.last rest (t0, p0)) in
  Weekly.price_stats ((t0, p0) :: rest)
  = ([], Ret (latest, (latest - p0)%Q, 0%Q)).
Proof.
  intros Hz latest. unfold Weekly.price_stats.
  rewrite last_price_cons. simpl.
  apply Qeq_bool_iff in Hz. rewrite Hz. reflexivity.
Qed.

(** C1, as amended.  Hourly script: when the window has at least two
    samples and its chronologically first one has price zero, the
    percentage computation raises [ZeroDivisionError]; [main] catches it,
    prints it and returns, and nothing is rendered or published.  Weekly
    script: the guard [if earliest_price else 0] makes the percentage [0]
    and the computation returns. *)
Theorem C1_zero_start_price :
  (forall w tf data t0 p0,
      fetch_btc_data Hourly.script w = (tf, Ret data) ->
      let window := select_window data (now_et w - Hourly.hour_us) in
      (2 <= length window)%nat ->
      head (sort_by_key fst window) = Some (t0, p0) ->
      (p0 == 0)%Q ->
      Hourly.price_stats (sort_by_key fst window)
        = ([], Raise zero_division_error)
      /\ Hourly.main w
         = ((tf ++ [Print (exn_str zero_division_error)])%list, Ret tt)
      /\ never is_render_call (trace (Hourly.main w))
      /\ never is_publish_call (trace (Hourly.main w)))
  /\ (forall t0 p0 rest,
        (p0 == 0)%Q ->
        Weekly.price_stats ((t0, p0) :: rest)
        = ([], Ret (snd (List.last rest (t0, p0)),
                    (snd (List.last rest (t0, p0)) - p0)%Q, 0%Q))).
Proof.
  split; [|intros; apply weekly_price_stats_zero; assumption].
  intros w tf data t0 p0 Hf window Hlen Hhead Hz.
  destruct (sort_by_key fst window) as [|s rest] eqn:Hsort; [discriminate|].
  injection Hhead as ->.
  assert (Hstats : Hourly.price_stats ((t0, p0) :: rest)
                   = ([], Raise zero_division_error))
    by (apply hourly_price_stats_zero, Hz).
  assert (Hmain : Hourly.main w
            = ((tf ++ [Print (exn_str zero_division_error)])%list, Ret tt)).
  { rewrite (hourly_main_fetched w tf data Hf). fold window.
    apply Nat.ltb_ge in Hlen. rewrite Hlen.
    rewrite (hourly_evaluate_raises w window zero_division_error)
      by (rewrite Hsort, Hstats; reflexivity).
    reflexivity. }
  split; [exact Hstats|]. split; [exact Hmain|].
  rewrite Hmain. simpl trace.
  pose proof (fetch_btc_data_no_render Hourly.script w) as Hr.
  pose proof (fetch_btc_data_no_publish Hourly.script w) as Hp.
  rewrite Hf in Hr, Hp. simpl in Hr, Hp.
  split; apply never_app; split; solve [assumption | reflexivity].
Qed.

Lemma C1_zero_start_price_witness :
  Hourly.main (world_with series_from_zero full_env)
  = ((trace (fetch_btc_data Hourly.script
               (world_with series_from_zero full_env))
      ++ [Print "float division by zero"])%list, Ret tt).
Proof.
  destruct C1_zero_start_price as [H _].
  edestruct (H (world_with series_from_zero full_env)) as (_ & Hmain & _);
    [reflexivity | apply le_n | reflexivity | reflexivity | exact Hmain].
Defined.

(** C1, as stated, fails on the weekly script: a series that starts at
    price 0 and ends at 5 gets percentage 0, no error is raised, and the
    run goes on to post the tweet. *)
Lemma C1_counterexample :
  Weekly.price_stats
    (slice_step 5 (map (fun pt : Z * Q => ((fst pt * 1000)%Z, snd pt))
                       series_week_from_zero))
  = ([], Ret (5%Q, (5 - 0)%Q, 0%Q))
  /\ Weekly.main (world_with series_week_from_zero full_env)
     = (trace (Weekly.main (world_with series_week_from_zero full_env)),
        Ret tt)
  /\ count is_create_tweet
       (trace (Weekly.main (world_with series_week_from_zero full_env)))
     = 1%nat
  /\ ~ In (Print (exn_str zero_division_error))
         (trace (Weekly.main (world_with series_week_from_zero full_env))).
Proof.
  repeat split; [vm_compute; reflexivity..|].
  vm_compute. intuition discriminate.
Qed.

(** ** Rendering and posting *)

(** Asked for a chart of a non-empty series, the script sends exactly one
    request to the chart service, whatever comes back. *)
Lemma generate_chart_image_render_once s w data filename :
  data <> [] ->
  count is_render_call (trace (generate_chart_image s w data filename)) = 1%nat.
Proof.
  intros Hne. destruct data as [|d data]; [congruence|].
  unfold generate_chart_image, call, raise_for_status. simpl map.
  cbv iota beta.
  destruct (quickchart w _) as [r|e]; simpl.
  - destruct (bool_decide _); destruct (_ && _); simpl;
      try destruct (write_file w filename); reflexivity.
  - destruct (except_RequestException _); reflexivity.
Qed.

Lemma generate_chart_image_no_publish s w data filename :
  never is_publish_call (trace (generate_chart_image s w data filename)).
Proof.
  destruct data as [|d data]; [reflexivity|].
  unfold never, generate_chart_image, call, raise_for_status. simpl map.
  cbv iota beta.
  destruct (quickchart w _) as [r|e]; simpl.
  - destruct (bool_decide _); destruct (_ && _); simpl;
      try destruct (write_file w filename); reflexivity.
  - destruct (except_RequestException _); reflexivity.
Qed.

Lemma post_tweet_with_image_ok w text path media_id tweet_id :
  missing_creds (environ w) = [] ->
  media_upload w path = Ret media_id ->
  create_tweet w text [media_id] = Ret tweet_id ->
  post_tweet_with_image w text path
  = ([Print "[INFO] Attempting to post tweet with image..."; LoadDotenv;
      Print ("[INFO] Uploading media '" +:+ path +:+ "' to X...");
      MediaUpload path;
      Print ("[INFO] Media upload successful (media_id="
             +:+ str_of_Z media_id +:+ ").");
      Print "[INFO] Creating tweet...";
      CreateTweet text [media_id];
      Print "[INFO] Tweet creation successful."], Ret tweet_id).
Proof.
  intros Hm Hu Hc. unfold post_tweet_with_image, call.
  rewrite Hm, Hu. simpl. rewrite Hc. reflexivity.
Qed.

Lemma post_tweet_with_image_missing w text path :
  missing_creds (environ w) <> [] ->
  post_tweet_with_image w text path
  = ([Print "[INFO] Attempting to post tweet with image..."; LoadDotenv],
     Raise (missing_error (missing_creds (environ w)))).
Proof.
  intros Hm. unfold post_tweet_with_image.
  destruct (missing_creds (environ w)); [congruence|reflexivity].
Qed.


(** C4.  Hourly script, window of at least two samples, percentage
    computed: when its absolute value is below 10 the run prints the
    skip line and returns; the trace holds the fetch and that line only,
    so no chart is requested, no text is composed for posting and nothing
    is uploaded or tweeted. *)
Theorem C4_below_threshold_skips w tf data latest diff pct :
  fetch_btc_data Hourly.script w = (tf, Ret data) ->
  let window := select_window data (now_et w - Hourly.hour_us) in
  (2 <= length window)%nat ->
  outcome (Hourly.price_stats (sort_by_key fst window))
    = Ret (latest, diff, pct) ->
  (Qabs pct < 10)%Q ->
  Hourly.main w
  = ((tf ++ [Print ("[INFO] Movement is only " +:+ format_2f false pct
                    +:+ "%. Less than 10%. Skipping post.")])%list, Ret tt)
  /\ never is_render_call (trace (Hourly.main w))
  /\ never is_publish_call (trace (Hourly.main w)).
Proof.
  intros Hf window Hlen Hs Hlt.
  assert (Hmain : Hourly.main w
    = ((tf ++ [Print ("[INFO] Movement is only " +:+ format_2f false pct
                      +:+ "%. Less than 10%. Skipping post.")])%list, Ret tt)).
  { rewrite (hourly_main_fetched w tf data Hf). fold window.
    apply Nat.ltb_ge in Hlen. rewrite Hlen.
    rewrite (hourly_evaluate_stats w window latest diff pct Hs).
    apply Qlt_bool_true in Hlt. rewrite Hlt. reflexivity. }
  split; [exact Hmain|]. rewrite Hmain. simpl trace.
  pose proof (fetch_btc_data_no_render Hourly.script w) as Hr.
  pose proof (fetch_btc_data_no_publish Hourly.script w) as Hp.
  rewrite Hf in Hr, Hp. simpl in Hr, Hp.
  split; apply never_app; split; solve [assumption | reflexivity].
Qed.

Lemma C4_below_threshold_skips_witness :
  Hourly.main (world_with series_quiet full_env)
  = ((trace (fetch_btc_data Hourly.script (world_with series_quiet full_env))
      ++ [Print "[INFO] Movement is only 3.00%. Less than 10%. Skipping post."])%list,
     Ret tt).
Proof.
  edestruct (C4_below_threshold_skips (world_with series_quiet full_env))
    as (Hmain & _);
    [reflexivity | apply le_n | reflexivity | reflexivity | exact Hmain].
Defined.

Lemma never_weaken (p q : Event -> bool) t :
  (forall ev, q ev = true -> p ev = true) -> never p t -> never q t.
Proof.
  intros Hpq. unfold never. induction t as [|ev t IH]; [reflexivity|].
  simpl. destruct (p ev) eqn:Ep; [discriminate|]. intros Ht.
  destruct (q ev) eqn:Eq; [|exact (IH Ht)].
  apply Hpq in Eq. congruence.
Qed.

Lemma never_create_of_never_publish t :
  never is_publish_call t -> never is_create_tweet t.
Proof.
  apply never_weaken. intros ev. destruct ev; simpl; congruence.
Qed.

Lemma post_tweet_with_image_no_render w text path :
  never is_render_call (trace (post_tweet_with_image w text path)).
Proof.
  unfold never, post_tweet_with_image, call.
  destruct (missing_creds (environ w)); [|reflexivity].
  destruct (media_upload w path) as [media_id|e]; simpl; [|reflexivity].
  destruct (create_tweet w text [media_id]); reflexivity.
Qed.

Lemma caught_quiet p body :
  (forall l, p (Print l) = false) -> count p (caught body) = 0%nat.
Proof.
  intros Hp. unfold caught, count.
  destruct (outcome body); simpl; [|rewrite Hp]; reflexivity.
Qed.

(** Steps 5 to 8 of the hourly script, by how the chart and the post end. *)
Lemma hourly_render_and_post_eq w data latest diff pct :
  let chart := generate_chart_image Hourly.script w data "chart.png" in
  let post :=
    post_tweet_with_image w (Hourly.tweet_text latest diff pct) "chart.png" in
  Hourly.render_and_post w data latest diff pct
  = match outcome chart with
    | Raise e => (trace chart, Raise e)
    | Ret _ =>
        match outcome post with
        | Raise e =>
            ((trace chart
              ++ Print "[INFO] Posting tweet with hourly BTC data..."
                 :: trace post)%list, Raise e)
        | Ret tweet_id =>
            ((trace chart
              ++ Print "[INFO] Posting tweet with hourly BTC data..."
                 :: trace post
              ++ [Print "[SUCCESS] Tweet posted successfully!";
                  Print ("[INFO] Tweet ID: " +:+ str_of_Z tweet_id)])%list,
             Ret tt)
        end
    end.
Proof.
  intros chart post. unfold Hourly.render_and_post.
  fold chart. fold post.
  destruct chart as [tc [[]|e]]; [|reflexivity].
  destruct post as [tp [tweet_id|e]]; reflexivity.
Qed.



(** ** The weekly script *)

(** A slice with a positive step keeps the first element. *)
Lemma slice_step_head {A} (step : nat) (l : list A) :
  head (slice_step step l) = head l.
Proof. destruct l; reflexivity. Qed.

Lemma slice_step_nonempty {A} (step : nat) (l : list A) :
  l <> [] -> slice_step step l <> [].
Proof. destruct l; [congruence|discriminate]. Qed.

(** The weekly change computation returns on every non-empty list. *)
Lemma weekly_price_stats_returns l :
  l <> [] -> exists stats, Weekly.price_stats l = ([], Ret stats).
Proof.
  intros Hne. destruct l as [|s l]; [congruence|].
  unfold Weekly.price_stats. rewrite last_price_cons. simpl.
  destruct (Qeq_bool (snd s) 0) eqn:E; simpl.
  - eexists. reflexivity.
  - unfold py_div. rewrite E. eexists. reflexivity.
Qed.

Lemma weekly_main_fetched w tf data :
  fetch_btc_data Weekly.script w = (tf, Ret data) ->
  Weekly.main w
  = ((tf ++ trace (Weekly.report w data) ++ caught (Weekly.report w data))%list,
     Ret tt).
Proof.
  intros Hf. unfold Weekly.main.
  rewrite try_print_all, Hf, bind_returned.
  unfold caught. simpl. rewrite app_assoc. reflexivity.
Qed.

(** Whenever the fetch returns, the weekly script reaches the chart
    request: nothing between the fetch and the chart can stop it. *)
Lemma weekly_always_renders w tf data :
  fetch_btc_data Weekly.script w = (tf, Ret data) ->
  count is_render_call (trace (Weekly.main w)) = 1%nat.
Proof.
  intros Hf.
  assert (Hne : data <> []).
  { apply (fetch_btc_data_nonempty Weekly.script w). rewrite Hf. reflexivity. }
  pose proof (fetch_btc_data_no_render Weekly.script w) as Hr.
  rewrite Hf in Hr. simpl in Hr. apply never_count in Hr.
  rewrite (weekly_main_fetched w tf data Hf). simpl trace.
  rewrite !count_app, Hr, (caught_quiet _ _) by reflexivity.
  unfold Weekly.report.
  destruct (weekly_price_stats_returns (slice_step 5 data)
              (slice_step_nonempty 5 data Hne)) as [[[latest diff] pct] Hs].
  rewrite Hs. unfold print, emit. rewrite bind_returned, bind_pure.
  simpl trace.
  change (count is_render_call (Print ?l :: ?t))
    with (count is_render_call t).
  pose proof (generate_chart_image_render_once Weekly.script w
                (slice_step 5 data) "chart.png"
                (slice_step_nonempty 5 data Hne)) as Hchart.
  pose proof (post_tweet_with_image_no_render w
                (Weekly.tweet_text latest diff pct) "chart.png") as Hpost.
  rewrite bind_trace, count_app, Hchart.
  destruct (outcome (generate_chart_image _ _ _ _)) as [[]|e];
    [|reflexivity].
  destruct (post_tweet_with_image w _ "chart.png") as [tp [tweet_id|e]];
    unfold never in Hpost; simpl in Hpost; unfold count; simpl;
    rewrite ?List.filter_app, Hpost; reflexivity.
Qed.

(** ** The digests *)

Lemma fill_performance_from (df : gmap string (list (option Q)))
    (tickers : list string) (acc : gmap string Digest.Info) (ticker : string) :
  fold_left
    (fun performance t =>
       match Digest.ticker_performance df t with
       | Some info => <[t := info]> performance
       | None => performance
       end)
    tickers acc !! ticker
  = match Digest.ticker_performance df ticker with
    | Some info => if decide (ticker ∈ tickers) then Some info
                   else acc !! ticker
    | None => acc !! ticker
    end.
Proof.
  revert acc. induction tickers as [|t tickers IH]; intros acc; simpl.
  - destruct (Digest.ticker_performance df ticker); reflexivity.
  - rewrite IH. destruct (Digest.ticker_performance df ticker) as [info|] eqn:E.
    + destruct (decide (ticker ∈ tickers)) as [Hin|Hnin].
      * rewrite decide_True by (right; exact Hin). reflexivity.
      * destruct (decide (ticker = t)) as [->|Hne].
        -- rewrite decide_True by left. rewrite E.
           apply lookup_insert_eq.
        -- rewrite decide_False
             by (intros Hin; apply elem_of_cons in Hin as [?|?]; tauto).
           destruct (Digest.ticker_performance df t); [|reflexivity].
           apply lookup_insert_ne. congruence.
    + destruct (Digest.ticker_performance df t) as [info|] eqn:Et;
        [|reflexivity].
      apply lookup_insert_ne. intros ->. congruence.
Qed.

(** The dict the fetch function returns holds, for a requested ticker,
    what the loop body computed for it, and nothing else. *)
Lemma fill_performance_lookup (df : gmap string (list (option Q)))
    (tickers : list string) (ticker : string) :
  Digest.fill_performance df tickers !! ticker
  = if decide (ticker ∈ tickers) then Digest.ticker_performance df ticker
    else None.
Proof.
  unfold Digest.fill_performance. rewrite fill_performance_from.
  rewrite lookup_empty.
  destruct (Digest.ticker_performance df ticker);
    destruct (decide (ticker ∈ tickers)); reflexivity.
Qed.

Lemma ticker_performance_short (df : gmap string (list (option Q)))
    (ticker : string) rows :
  df !! ticker = Some rows ->
  (length (Digest.dropna rows) < 2)%nat ->
  Digest.ticker_performance df ticker = None.
Proof.
  intros Hrows Hlen. unfold Digest.ticker_performance. rewrite Hrows.
  unfold Digest.tail2.
  destruct (Digest.dropna rows) as [|a [|b l]]; simpl in *;
    [reflexivity | reflexivity | lia].
Qed.

Lemma line_for_no_data s (perf : gmap string Digest.Info) ticker :
  perf !! ticker = None ->
  Digest.line_for s perf ticker
  = Digest.no_data_prefix s +:+ ticker +:+ ": No Data".
Proof. intros H. unfold Digest.line_for. rewrite H. reflexivity. Qed.

Lemma digest_main_downloaded s w df :
  Digest.yf_download w (Digest.TICKERS s) (Digest.period s) (Digest.interval s)
    = Ret df ->
  let download :=
    YfDownload (Digest.TICKERS s) (Digest.period s) (Digest.interval s) in
  let perf_data := Digest.fill_performance df (Digest.TICKERS s) in
  let text := Digest.tweet_text s (Digest.build_lines s perf_data) in
  Digest.main s w
  = if decide (perf_data = ∅) then
      ([download; Print (Digest.no_data_banner s)], Ret tt)
    else
      (download
         :: match Digest.post_tweet w text with
            | (t, Ret tweet_id) =>
                (t ++ [Print "[SUCCESS] Tweet posted successfully!";
                       Print ("[INFO] Tweet ID: " +:+ str_of_Z tweet_id)])%list
            | (t, Raise e) => (t ++ [Print (exn_str e)])%list
            end, Ret tt).
Proof.
  intros Hd download perf_data text.
  unfold Digest.main, Digest.fetch_performance, call. rewrite Hd.
  rewrite bind_returned. unfold ret. simpl trace. simpl outcome.
  rewrite bind_returned. fold perf_data.
  destruct (decide (perf_data = ∅)); [reflexivity|].
  fold text. destruct (Digest.post_tweet w text) as [t [tweet_id|e]];
    reflexivity.
Qed.

Lemma digest_main_download_raises s w e :
  Digest.yf_download w (Digest.TICKERS s) (Digest.period s) (Digest.interval s)
    = Raise e ->
  Digest.main s w
  = ([YfDownload (Digest.TICKERS s) (Digest.period s) (Digest.interval s)],
     Raise e).
Proof.
  intros Hd. unfold Digest.main, Digest.fetch_performance, call.
  rewrite Hd. reflexivity.
Qed.

(** One call of [post_tweet] asks X to create at most one tweet: exactly
    one when the four credentials are set, none otherwise. *)
Lemma digest_post_tweet_calls w text :
  List.filter is_create_tweet (trace (Digest.post_tweet w text))
  = match missing_creds (Digest.environ w) with
    | [] => [CreateTweet text []]
    | _ :: _ => []
    end.
Proof.
  unfold Digest.post_tweet, call.
  destruct (missing_creds (Digest.environ w)); [|reflexivity].
  destruct (Digest.create_tweet w text); reflexivity.
Qed.

Lemma digest_post_tweet_missing w text :
  missing_creds (Digest.environ w) <> [] ->
  Digest.post_tweet w text
  = ([Print "[INFO] Attempting to post a text-only tweet..."; LoadDotenv],
     Raise (missing_error (missing_creds (Digest.environ w)))).
Proof.
  intros Hm. unfold Digest.post_tweet.
  destruct (missing_creds (Digest.environ w)); [congruence|reflexivity].
Qed.

(** C2.  The weekly script on a two-sample series, 100 then 112: the
    slice of step 5 keeps the first sample only, the statistics are taken
    from the slice, and the tweet reports 100.00 and a change of 0.00%,
    where the two fetched samples give 112, 12 and 12%. *)
Theorem C2_weekly_stats_from_downsampled_series :
  let fetched :=
    map (fun pt : Z * Q => ((fst pt * 1000)%Z, snd pt)) series_pair in
  let w := world_with series_pair full_env in
  outcome (fetch_btc_data Weekly.script w) = Ret fetched
  /\ slice_step 5 fetched = [(0%Z, 100%Q)]
  /\ List.last (slice_step 5 fetched) (0%Z, 0%Q)
     <> List.last fetched (0%Z, 0%Q)
  /\ List.filter is_create_tweet (trace (Weekly.main w))
     = [CreateTweet (Weekly.tweet_text 100 0 0) [7%Z]]
  /\ (exists latest diff pct,
        Weekly.price_stats fetched = ([], Ret (latest, diff, pct))
        /\ (latest == 112 /\ diff == 12 /\ pct == 12)%Q)
  /\ Weekly.tweet_text 100 0 0 <> Weekly.tweet_text 112 12 12.
Proof.
  cbv zeta. split; [reflexivity|]. split; [reflexivity|].
  split; [vm_compute; discriminate|].
  split; [vm_compute; reflexivity|]. split.
  - eexists _, _, _. split; [reflexivity|]. repeat split; reflexivity.
  - vm_compute. discriminate.
Qed.

(** The hourly and the weekly [main] never raise. *)
Lemma hourly_main_returns w : outcome (Hourly.main w) = Ret tt.
Proof. unfold Hourly.main. rewrite try_print_all. reflexivity. Qed.

Lemma weekly_main_returns w : outcome (Weekly.main w) = Ret tt.
Proof. unfold Weekly.main. rewrite try_print_all. reflexivity. Qed.

(** Nor does a digest, once the batch download has returned. *)
Lemma digest_main_returns s w df :
  Digest.yf_download w (Digest.TICKERS s) (Digest.period s) (Digest.interval s)
    = Ret df ->
  outcome (Digest.main s w) = Ret tt.
Proof.
  intros Hd. rewrite (digest_main_downloaded s w df Hd).
  destruct (decide _); reflexivity.
Qed.

(** C8.  A digest whose batch download raises: [main] calls the fetch
    function outside any [try], the download is outside the per-ticker
    [try], and the exception leaves [main]. *)
Theorem C8_digest_download_error_escapes :
  Digest.main Digest.eod_favorites (digest_world (Raise download_error) full_env)
  = ([YfDownload Digest.favorites "5d" "1d"], Raise download_error)
  /\ ~ returns_normally
       (Digest.main Digest.eod_favorites
          (digest_world (Raise download_error) full_env)).
Proof.
  split; [reflexivity|]. intros [a Ha]. discriminate Ha.
Qed.

(** ** Credentials *)

Lemma falsy_unset_or_empty v : falsy v = true <-> v = None \/ v = Some "".
Proof.
  destruct v as [s|]; simpl.
  - rewrite bool_decide_eq_true. split.
    + intros ->. right. reflexivity.
    + intros [H|H]; congruence.
  - split; [left; reflexivity|reflexivity].
Qed.

(** C9, as amended.  When one of the four credentials is unset, or set to
    the empty string, both publish functions raise [ValueError] right
    after loading the environment, before any upload or tweet creation
    and with no network call at all.  The message lists, in the fixed
    order and separated by a comma and a space, exactly the credentials
    that are unset or empty. *)
Theorem C9_missing_credentials_fail_fast (env : gmap string string) :
  (exists name, In name credential_names
                /\ (env !! name = None \/ env !! name = Some "")) ->
  let missing := missing_creds env in
  (forall name, In name missing <->
                In name credential_names
                /\ (env !! name = None \/ env !! name = Some ""))
  /\ missing `sublist_of` credential_names
  /\ missing_error missing
     = mkExn ValueError ("[ERROR] Missing required credentials in .env: "
                         +:+ join ", " missing)
  /\ (forall w text image_path,
        environ w = env ->
        post_tweet_with_image w text image_path
        = ([Print "[INFO] Attempting to post tweet with image..."; LoadDotenv],
           Raise (missing_error missing))
        /\ never is_network_call
             (trace (post_tweet_with_image w text image_path)))
  /\ (forall w text,
        Digest.environ w = env ->
        Digest.post_tweet w text
        = ([Print "[INFO] Attempting to post a text-only tweet..."; LoadDotenv],
           Raise (missing_error missing))
        /\ never is_network_call (trace (Digest.post_tweet w text))).
Proof.
  intros (name0 & Hin0 & Hfalsy0) missing.
  assert (Hchar : forall name, In name missing <->
                    In name credential_names
                    /\ (env !! name = None \/ env !! name = Some "")).
  { intros name. unfold missing, missing_creds.
    rewrite filter_In, falsy_unset_or_empty. reflexivity. }
  assert (Hne : missing <> []).
  { intros Hnil. assert (Hin : In name0 missing) by (apply Hchar; tauto).
    rewrite Hnil in Hin. exact Hin. }
  split; [exact Hchar|]. split; [apply filter_sublist|].
  split; [reflexivity|split].
  - intros w text image_path Henv. subst env.
    rewrite (post_tweet_with_image_missing w text image_path Hne).
    split; reflexivity.
  - intros w text Henv. subst env.
    rewrite (digest_post_tweet_missing w text Hne).
    split; reflexivity.
Qed.

Lemma C9_missing_credentials_fail_fast_witness :
  Digest.post_tweet (digest_world (Ret frame_mixed) empty_secret_env) "text"
  = ([Print "[INFO] Attempting to post a text-only tweet..."; LoadDotenv],
     Raise (mkExn ValueError
              "[ERROR] Missing required credentials in .env: ACCESS_TOKEN_SECRET")).
Proof.
  assert (Hempty : exists name,
             In name credential_names
             /\ (empty_secret_env !! name = None
                 \/ empty_secret_env !! name = Some "")).
  { exists "ACCESS_TOKEN_SECRET".
    split; [right; right; right; left; reflexivity|right; reflexivity]. }
  destruct (C9_missing_credentials_fail_fast empty_secret_env Hempty)
    as (_ & _ & _ & _ & Hpost).
  exact (proj1 (Hpost (digest_world (Ret frame_mixed) empty_secret_env) "text"
                      eq_refl)).
Defined.

(** C9, as stated, fails when a credential is set to the empty string:
    with [API_KEY] absent and [API_KEY_SECRET] present but empty, the
    message names both, so it names a credential that is not absent. *)
Lemma C9_counterexample :
  partial_env !! "API_KEY" = None
  /\ partial_env !! "API_KEY_SECRET" = Some ""
  /\ List.filter (fun name => bool_decide (partial_env !! name = None))
       credential_names = ["API_KEY"]
  /\ post_tweet_with_image (world_with series_ten partial_env) "text"
       "chart.png"
     = ([Print "[INFO] Attempting to post tweet with image..."; LoadDotenv],
        Raise (mkExn ValueError
                 "[ERROR] Missing required credentials in .env: API_KEY, API_KEY_SECRET")).
Proof. repeat split; vm_compute; reflexivity. Qed.

(** ** Insufficient data *)

(** C3, as amended.  Hourly script: a window of fewer than two samples
    makes the run print the not-enough-data line and return; the trace is
    the fetch and that line, so the change is not computed (no division
    error can show, whatever the prices) and nothing is rendered or
    published.  Digests: a ticker with fewer than two complete rows gets no
    entry, its change is not computed and its line reads No Data; once
    the download has returned, the run stops before composing, with its
    notice as the only line, exactly when no configured ticker has an
    entry. *)
Theorem C3_insufficient_data :
  (forall w tf data,
      fetch_btc_data Hourly.script w = (tf, Ret data) ->
      (length (select_window data (now_et w - Hourly.hour_us)) < 2)%nat ->
      Hourly.main w = ((tf ++ [Print Hourly.not_enough])%list, Ret tt)
      /\ never is_render_call (trace (Hourly.main w))
      /\ never is_publish_call (trace (Hourly.main w)))
  /\ (forall s (df : gmap string (list (option Q))) ticker rows,
        df !! ticker = Some rows ->
        (length (Digest.dropna rows) < 2)%nat ->
        Digest.ticker_performance df ticker = None
        /\ Digest.fill_performance df (Digest.TICKERS s) !! ticker = None
        /\ Digest.line_for s (Digest.fill_performance df (Digest.TICKERS s))
             ticker
           = Digest.no_data_prefix s +:+ ticker +:+ ": No Data")
  /\ (forall s w df,
        Digest.yf_download w (Digest.TICKERS s) (Digest.period s)
          (Digest.interval s) = Ret df ->
        (Digest.main s w
         = ([YfDownload (Digest.TICKERS s) (Digest.period s)
               (Digest.interval s);
             Print (Digest.no_data_banner s)], Ret tt)
         <-> forall ticker, In ticker (Digest.TICKERS s) ->
                            Digest.ticker_performance df ticker = None)).
Proof.
  split; [|split].
  - intros w tf data Hf Hlen.
    assert (Hmain : Hourly.main w
              = ((tf ++ [Print Hourly.not_enough])%list, Ret tt)).
    { rewrite (hourly_main_fetched w tf data Hf).
      apply Nat.ltb_lt in Hlen. rewrite Hlen. reflexivity. }
    split; [exact Hmain|]. rewrite Hmain. simpl trace.
    pose proof (fetch_btc_data_no_render Hourly.script w) as Hr.
    pose proof (fetch_btc_data_no_publish Hourly.script w) as Hp.
    rewrite Hf in Hr, Hp. simpl in Hr, Hp.
    split; apply never_app; split; solve [assumption | reflexivity].
  - intros s df ticker rows Hrows Hlen.
    pose proof (ticker_performance_short df ticker rows Hrows Hlen) as Hnone.
    assert (Hlookup : Digest.fill_performance df (Digest.TICKERS s) !! ticker
                      = None).
    { rewrite fill_performance_lookup, Hnone. destruct (decide _); reflexivity. }
    split; [exact Hnone|]. split; [exact Hlookup|].
    apply line_for_no_data, Hlookup.
  - intros s w df Hd.
    rewrite (digest_main_downloaded s w df Hd).
    destruct (decide (Digest.fill_performance df (Digest.TICKERS s) = ∅))
      as [Hempty|Hne].
    + split; [|reflexivity]. intros _ ticker Hin.
      pose proof (fill_performance_lookup df (Digest.TICKERS s) ticker) as Hl.
      rewrite Hempty, lookup_empty in Hl.
      rewrite decide_True in Hl by (apply list_elem_of_In, Hin).
      symmetry. exact Hl.
    + split.
      * intros Heq. exfalso.
        apply (f_equal (fun m : M unit => length (trace m))) in Heq.
        simpl in Heq. revert Heq. unfold Digest.post_tweet.
        destruct (missing_creds (Digest.environ w)); simpl.
        -- unfold call.
           destruct (Digest.create_tweet w _); simpl; discriminate.
        -- discriminate.
      * intros Hall. exfalso. apply Hne, map_eq. intros ticker.
        rewrite fill_performance_lookup, lookup_empty.
        destruct (decide (ticker ∈ Digest.TICKERS s)) as [Hin|];
          [|reflexivity].
        apply Hall, list_elem_of_In, Hin.
Qed.

Lemma C3_insufficient_data_witness :
  Hourly.main (world_with series_single full_env)
  = ((trace (fetch_btc_data Hourly.script (world_with series_single full_env))
      ++ [Print Hourly.not_enough])%list, Ret tt).
Proof.
  destruct C3_insufficient_data as [H _].
  edestruct (H (world_with series_single full_env)) as (Hmain & _);
    [reflexivity | apply le_n | exact Hmain].
Defined.

(** C3, as stated, fails on the digests: with a single complete row for
    one configured ticker the run is not skipped, it composes the message
    with a No Data line for that ticker and asks X for the tweet. *)
Lemma C3_counterexample :
  frame_mixed !! "QQQ" = Some [Some 50%Q]
  /\ length (Digest.dropna [Some 50%Q]) = 1%nat
  /\ In "QQQ" (Digest.TICKERS Digest.eod_favorites)
  /\ count is_create_tweet
       (trace (Digest.main Digest.eod_favorites
                 (digest_world (Ret frame_mixed) full_env))) = 1%nat
  /\ build_lines_second_line = "QQQ: No Data".
Proof.
  repeat split; try (vm_compute; reflexivity).
  right. left. reflexivity.
Qed.

(** ** The digest message *)

(** C7, as amended.  A digest whose download returns and in which at
    least one configured ticker has two complete rows applies no test on
    the size of any move: it builds one line per configured ticker, in the
    configured order, the line of a ticker without an entry being the
    script's prefix (empty, or a dollar sign), the ticker and ": No Data";
    it joins them between the header and the hashtags; it calls the post
    function once, which asks X for one tweet with that text when the four
    credentials are set and for none otherwise; and it returns. *)
Theorem C7_digest_lines_and_single_post s w df :
  Digest.yf_download w (Digest.TICKERS s) (Digest.period s) (Digest.interval s)
    = Ret df ->
  (exists ticker info,
      In ticker (Digest.TICKERS s)
      /\ Digest.ticker_performance df ticker = Some info) ->
  let perf_data := Digest.fill_performance df (Digest.TICKERS s) in
  let lines := Digest.build_lines s perf_data in
  let text := Digest.tweet_text s lines in
  let post := Digest.post_tweet w text in
  length lines = length (Digest.TICKERS s)
  /\ (forall i ticker,
        Digest.TICKERS s !! i = Some ticker ->
        lines !! i = Some (Digest.line_for s perf_data ticker))
  /\ (forall ticker,
        In ticker (Digest.TICKERS s) ->
        Digest.ticker_performance df ticker = None ->
        Digest.line_for s perf_data ticker
        = Digest.no_data_prefix s +:+ ticker +:+ ": No Data")
  /\ text = Digest.header s +:+ nl +:+ nl +:+ join nl lines +:+ nl +:+ nl
            +:+ Digest.hashtags s
  /\ (exists report,
        Digest.main s w
        = ((YfDownload (Digest.TICKERS s) (Digest.period s) (Digest.interval s)
              :: trace post ++ report)%list, Ret tt)
        /\ never is_network_call report)
  /\ List.filter is_create_tweet (trace (Digest.main s w))
     = match missing_creds (Digest.environ w) with
       | [] => [CreateTweet text []]
       | _ :: _ => []
       end.
Proof.
  intros Hd (ticker0 & info0 & Hin0 & Hinfo0) perf_data lines text post.
  assert (Hne : perf_data <> ∅).
  { intros Hempty.
    assert (Hl : perf_data !! ticker0 = Some info0).
    { unfold perf_data. rewrite fill_performance_lookup, Hinfo0.
      rewrite decide_True by (apply list_elem_of_In, Hin0). reflexivity. }
    rewrite Hempty, lookup_empty in Hl. discriminate Hl. }
  assert (Hmain : exists report,
            Digest.main s w
            = ((YfDownload (Digest.TICKERS s) (Digest.period s)
                  (Digest.interval s) :: trace post ++ report)%list, Ret tt)
            /\ never is_network_call report
            /\ never is_create_tweet report).
  { rewrite (digest_main_downloaded s w df Hd).
    fold perf_data. rewrite decide_False by exact Hne.
    fold lines. fold text. fold post.
    destruct post as [t [tweet_id|e]]; eexists; (split; [reflexivity|]);
      split; reflexivity. }
  split; [apply length_map|]. split; [|split; [|split; [reflexivity|split]]].
  - intros i ticker Hi. unfold lines, Digest.build_lines.
    rewrite list_lookup_fmap, Hi. reflexivity.
  - intros ticker Hin Hnone. apply line_for_no_data.
    unfold perf_data. rewrite fill_performance_lookup, Hnone.
    destruct (decide _); reflexivity.
  - destruct Hmain as (report & Hm & Hnet & _). exists report. tauto.
  - destruct Hmain as (report & Hm & _ & Hcreate). rewrite Hm. simpl trace.
    change (List.filter is_create_tweet (YfDownload ?a ?b ?c :: ?t))
      with (List.filter is_create_tweet t).
    rewrite List.filter_app, Hcreate, app_nil_r.
    apply digest_post_tweet_calls.
Qed.

Lemma C7_digest_lines_and_single_post_witness :
  List.filter is_create_tweet
    (trace (Digest.main Digest.eod_favorites
              (digest_world (Ret frame_mixed) full_env)))
  = [CreateTweet
       (Digest.tweet_text Digest.eod_favorites
          (Digest.build_lines Digest.eod_favorites
             (Digest.fill_performance frame_mixed Digest.favorites))) []].
Proof.
  assert (Hsome : exists ticker info,
             In ticker (Digest.TICKERS Digest.eod_favorites)
             /\ Digest.ticker_performance frame_mixed ticker = Some info).
  { exists "SPY". eexists. split; [left; reflexivity|reflexivity]. }
  destruct (C7_digest_lines_and_single_post Digest.eod_favorites
              (digest_world (Ret frame_mixed) full_env) frame_mixed
              eq_refl Hsome) as (_ & _ & _ & _ & _ & Hpost).
  exact Hpost.
Defined.

(** C7, as stated, fails when no configured ticker has data: the digest
    prints its banner and returns, no message is composed and X is not
    called. *)
Lemma C7_counterexample :
  Digest.main Digest.eow_mag7 (digest_world (Ret ∅) full_env)
  = ([YfDownload (Digest.TICKERS Digest.eow_mag7) "2mo" "1wk";
      Print (Digest.no_data_banner Digest.eow_mag7)], Ret tt)
  /\ count is_create_tweet
       (trace (Digest.main Digest.eow_mag7 (digest_world (Ret ∅) full_env)))
     = 0%nat.
Proof. split; vm_compute; reflexivity. Qed.

(** * Further properties of the scripts *)

(** ** The classifier: symmetry and order *)

Lemma in_band_mirror m p : in_band m p -> in_band (mirror m) (- p).
Proof. destruct m; simpl; intros Hm; destruct_and?; try split; lra. Qed.

Lemma in_band_tier m m' p q :
  (p <= q)%Q -> in_band m p -> in_band m' q -> (tier m <= tier m')%Z.
Proof.
  intros Hpq. destruct m, m'; simpl; intros Hm Hm';
    first [lia | exfalso; destruct_and?; lra].
Qed.

(** X1.  The thresholds are symmetric: the marker of a fall is the mirror
    image of the marker of the rise of the same size. *)
Theorem get_movement_emoji_mirror (p : Q) :
  get_movement_emoji (- p) = mirror (get_movement_emoji p).
Proof.
  apply (in_band_disjoint _ _ (- p)).
  - apply get_movement_emoji_in_band.
  - apply in_band_mirror, get_movement_emoji_in_band.
Qed.

(** X2.  The classifier is monotone: a larger percentage never gets a
    marker of a lower tier. *)
Theorem get_movement_emoji_monotone (p q : Q) :
  (p <= q)%Q ->
  (tier (get_movement_emoji p) <= tier (get_movement_emoji q))%Z.
Proof.
  intros Hpq. apply (in_band_tier _ _ p q Hpq);
    apply get_movement_emoji_in_band.
Qed.

Lemma get_movement_emoji_monotone_witness :
  (tier (get_movement_emoji 3) <= tier (get_movement_emoji 12))%Z.
Proof.
  apply get_movement_emoji_monotone. unfold Qle. simpl. lia.
Defined.

(** ** Fetching from CoinGecko *)

Lemma ascending_scaled (points : list (Z * Q)) :
  ascending (map (fun point : Z * Q => ((fst point * 1000)%Z, snd point)) points)
  = ascending points.
Proof.
  induction points as [|a [|b points] IH]; [reflexivity..|].
  change (ascending (map ?f (a :: b :: points)))
    with ((fst a * 1000 <=? fst b * 1000)%Z && ascending (map f (b :: points))).
  change (ascending (a :: b :: points))
    with ((fst a <=? fst b)%Z && ascending (b :: points)).
  rewrite IH. f_equal.
  destruct (Z.leb_spec (fst a) (fst b)), (Z.leb_spec (fst a * 1000) (fst b * 1000));
    try reflexivity; lia.
Qed.

(** X3.  How [fetch_btc_data] fails.  A request that raises a
    [RequestException], or an answer with a 4xx or 5xx status, becomes an
    [Exception] whose text starts with the failed-to-fetch prefix; any
    other exception of the request passes through unchanged; an accepted
    answer without the "prices" key, or with an empty list under it,
    becomes the missing-prices [Exception].  In all four cases exactly one
    request was sent and nothing is returned. *)
Theorem fetch_btc_data_failures (s : Script) (w : World) :
  let sent := [Print (fetch_banner s); HttpGet coingecko_url (days s)] in
  let failed text :=
    mkExn Exception ("[ERROR] Failed to fetch data from CoinGecko: " +:+ text) in
  (forall e, coingecko w (days s) = Raise e ->
             exn_class e = RequestException ->
             fetch_btc_data s w = (sent, Raise (failed (exn_str e))))
  /\ (forall e, coingecko w (days s) = Raise e ->
                exn_class e <> RequestException ->
                fetch_btc_data s w = (sent, Raise e))
  /\ (forall r, coingecko w (days s) = Ret r ->
                status_ok r = false ->
                fetch_btc_data s w = (sent, Raise (failed (http_error r))))
  /\ (forall r, coingecko w (days s) = Ret r ->
                status_ok r = true ->
                json_prices r = None \/ json_prices r = Some [] ->
                fetch_btc_data s w
                = (sent, Raise (mkExn Exception
                     "[ERROR] CoinGecko response is missing 'prices' data."))).
Proof.
  cbv zeta. unfold fetch_btc_data, call, raise_for_status, status_ok.
  repeat split.
  - intros e -> Hc. simpl. unfold except_RequestException.
    rewrite bool_decide_eq_true_2 by exact Hc. reflexivity.
  - intros e -> Hc. simpl. unfold except_RequestException.
    rewrite bool_decide_eq_false_2 by exact Hc. reflexivity.
  - intros r -> Hs. apply negb_false_iff in Hs. simpl. rewrite Hs. reflexivity.
  - intros r -> Hs Hp. apply negb_true_iff in Hs. simpl. rewrite Hs. simpl.
    destruct Hp as [-> | ->]; reflexivity.
Qed.

Lemma fetch_btc_data_failures_witness :
  fetch_btc_data Hourly.script (world_fetch (Ret too_many_requests))
  = ([Print (fetch_banner Hourly.script); HttpGet coingecko_url 1],
     Raise (mkExn Exception
       "[ERROR] Failed to fetch data from CoinGecko: 429 Client Error: Too Many Requests")).
Proof.
  destruct (fetch_btc_data_failures Hourly.script
              (world_fetch (Ret too_many_requests))) as (_ & _ & H & _).
  exact (H too_many_requests eq_refl eq_refl).
Defined.

(** X4.  What [fetch_btc_data] returns.  On an accepted answer with a
    non-empty price list it sends one request and returns one sample per
    point, in the order received, the instant being the millisecond stamp
    times 1000 and the price unchanged; the result is in ascending time
    order exactly when the points are. *)
Theorem fetch_btc_data_success (s : Script) (w : World) r points :
  coingecko w (days s) = Ret r ->
  status_ok r = true ->
  json_prices r = Some points ->
  points <> [] ->
  exists data,
    fetch_btc_data s w
    = ([Print (fetch_banner s); HttpGet coingecko_url (days s);
        Print ("[INFO] Successfully retrieved " +:+ str_of_nat (length points)
               +:+ " data points for BTC (" +:+ span_name s +:+ ").")],
       Ret data)
    /\ length data = length points
    /\ map snd data = map snd points
    /\ map fst data = map (fun point => (fst point * 1000)%Z) points
    /\ ascending data = ascending points.
Proof.
  intros Hr Hs Hp Hne.
  exists (map (fun point : Z * Q => ((fst point * 1000)%Z, snd point)) points).
  split; [|split; [|split; [|split]]].
  - unfold fetch_btc_data, call, raise_for_status.
    unfold status_ok in Hs. apply negb_true_iff in Hs.
    rewrite Hr. simpl. rewrite Hs. simpl. rewrite Hp.
    destruct points as [|pt points]; [congruence|].
    simpl. rewrite !length_map. reflexivity.
  - apply length_map.
  - rewrite map_map. reflexivity.
  - rewrite map_map. reflexivity.
  - apply ascending_scaled.
Qed.

Lemma fetch_btc_data_success_witness :
  exists data,
    outcome (fetch_btc_data Hourly.script (world_with series_rising full_env))
    = Ret data
    /\ map snd data = [90%Q; 100%Q; 112%Q].
Proof.
  destruct (fetch_btc_data_success Hourly.script
              (world_with series_rising full_env)
              (ok_response (Some series_rising)) series_rising
              eq_refl eq_refl eq_refl)
    as (data & Hf & _ & Hprices & _); [discriminate|].
  exists data. split; [rewrite Hf; reflexivity|exact Hprices].
Defined.

(** ** The chart request *)

Lemma py_min_spec x xs :
  In (py_min x xs) (x :: xs)
  /\ forall y, In y (x :: xs) -> (py_min x xs <= y)%Q.
Proof.
  unfold py_min. revert x. induction xs as [|a xs IH]; intros x.
  - simpl. split; [left; reflexivity|].
    intros y [<-|[]]. apply Qle_refl.
  - simpl fold_left.
    destruct (IH (if Qlt_bool a x then a else x)) as [Hin Hle].
    split.
    + destruct Hin as [Hin|Hin]; [|right; right; exact Hin].
      rewrite <- Hin. destruct (Qlt_bool a x); [right; left|left]; reflexivity.
    + intros y Hy.
      assert (Hhead : (fold_left (fun m y0 => if Qlt_bool y0 m then y0 else m)
                         xs (if Qlt_bool a x then a else x)
                       <= (if Qlt_bool a x then a else x))%Q)
        by (apply Hle; left; reflexivity).
      destruct Hy as [<-|[<-|Hy]].
      * eapply Qle_trans; [exact Hhead|].
        destruct (Qlt_bool a x) eqn:E; [|apply Qle_refl].
        apply Qlt_bool_true in E. apply Qlt_le_weak, E.
      * eapply Qle_trans; [exact Hhead|].
        destruct (Qlt_bool a x) eqn:E; [apply Qle_refl|].
        apply Qlt_bool_false in E. exact E.
      * apply Hle. right. exact Hy.
Qed.

Lemma py_max_spec x xs :
  In (py_max x xs) (x :: xs)
  /\ forall y, In y (x :: xs) -> (y <= py_max x xs)%Q.
Proof.
  unfold py_max. revert x. induction xs as [|a xs IH]; intros x.
  - simpl. split; [left; reflexivity|].
    intros y [<-|[]]. apply Qle_refl.
  - simpl fold_left.
    destruct (IH (if Qgt_bool a x then a else x)) as [Hin Hle].
    split.
    + destruct Hin as [Hin|Hin]; [|right; right; exact Hin].
      rewrite <- Hin. destruct (Qgt_bool a x); [right; left|left]; reflexivity.
    + intros y Hy.
      assert (Hhead : ((if Qgt_bool a x then a else x)
                       <= fold_left (fun m y0 => if Qgt_bool y0 m then y0 else m)
                            xs (if Qgt_bool a x then a else x))%Q)
        by (apply Hle; left; reflexivity).
      destruct Hy as [<-|[<-|Hy]].
      * eapply Qle_trans; [|exact Hhead].
        destruct (Qgt_bool a x) eqn:E; [|apply Qle_refl].
        apply Qgt_bool_true in E. apply Qlt_le_weak, E.
      * eapply Qle_trans; [|exact Hhead].
        destruct (Qgt_bool a x) eqn:E; [apply Qle_refl|].
        apply Qgt_bool_false in E. exact E.
      * apply Hle. right. exact Hy.
Qed.

(** The one chart request of a run is the one [chart_request] describes. *)
Lemma generate_chart_image_request s w data filename c :
  chart_request s data = Some c ->
  List.filter is_render_call (trace (generate_chart_image s w data filename))
  = [HttpPost quickchart_url c].
Proof.
  unfold chart_request, generate_chart_image, call, raise_for_status.
  destruct (map _ data) as [|p ps]; [discriminate|].
  cbv zeta. intros [= <-].
  destruct (quickchart w _) as [r|e]; simpl.
  - destruct (bool_decide _); destruct (_ && _); simpl;
      try destruct (write_file w filename); reflexivity.
  - destruct (except_RequestException _); reflexivity.
Qed.

(** X5.  The chart of a non-empty series.  The request carries one
    instant and one price per sample, in order, each price rounded to two
    decimals; its vertical bounds are the lowest plotted price minus, and
    the highest plus, a twentieth of their difference, so every plotted
    price lies within the bounds; and it is the only request the function
    sends to the chart service. *)
Theorem chart_request_bounds (s : Script) (data : list Sample) :
  data <> [] ->
  exists c lo hi,
    chart_request s data = Some c
    /\ chart_instants c = map fst data
    /\ chart_prices c = map (fun sample : Sample => round2 (snd sample)) data
    /\ In lo (chart_prices c) /\ In hi (chart_prices c)
    /\ (forall p, In p (chart_prices c) ->
                  (chart_y_min c <= lo /\ lo <= p /\ p <= hi
                   /\ hi <= chart_y_max c)%Q)
    /\ (chart_y_min c == lo - (hi - lo) * 0.05)%Q
    /\ (chart_y_max c == hi + (hi - lo) * 0.05)%Q
    /\ forall w filename,
         List.filter is_render_call
           (trace (generate_chart_image s w data filename))
         = [HttpPost quickchart_url c].
Proof.
  intros Hne.
  destruct (chart_request s data) as [c|] eqn:Hc.
  2:{ unfold chart_request in Hc. destruct data; [congruence|discriminate]. }
  pose proof Hc as Hc'. unfold chart_request in Hc'.
  destruct (map _ data) as [|p ps] eqn:Hmap; [discriminate|].
  cbv zeta in Hc'. injection Hc' as <-.
  destruct (py_min_spec p ps) as [Hmin_in Hmin].
  destruct (py_max_spec p ps) as [Hmax_in Hmax].
  eexists _, (py_min p ps), (py_max p ps).
  split; [reflexivity|].
  cbn [chart_instants chart_prices chart_y_min chart_y_max].
  split; [reflexivity|]. split; [reflexivity|].
  split; [exact Hmin_in|]. split; [exact Hmax_in|].
  assert (Hrange : (py_min p ps <= py_max p ps)%Q)
    by (apply Hmin; exact Hmax_in).
  split; [|split; [|split]].
  - intros q Hq. specialize (Hmin q Hq). specialize (Hmax q Hq).
    repeat split; try assumption; lra.
  - apply Qeq_refl.
  - apply Qeq_refl.
  - intros w filename. apply (generate_chart_image_request s w data filename).
    unfold chart_request. rewrite Hmap. reflexivity.
Qed.

Lemma chart_request_bounds_witness :
  exists c,
    chart_request Hourly.script samples_ascending = Some c
    /\ (chart_y_min c == 9985 # 100)%Q
    /\ (chart_y_max c == 10315 # 100)%Q.
Proof.
  destruct (chart_request_bounds Hourly.script samples_ascending)
    as (c & lo & hi & Hc & _); [discriminate|].
  exists c. split; [exact Hc|].
  vm_compute in Hc. injection Hc as <-. split; reflexivity.
Defined.

(** X6.  When the chart file is written.  For a non-empty series: an
    answer of the chart service whose status is not 4xx or 5xx makes the
    function write the file once, and it ends as the write ends; an
    answer with a 4xx or 5xx status, or a request that raises a
    [RequestException], becomes an [Exception] with the failed-to-generate
    prefix; any other exception passes through; and in these three cases
    no file is written. *)
Theorem generate_chart_image_writes (s : Script) (w : World) data filename c :
  chart_request s data = Some c ->
  let run := generate_chart_image s w data filename in
  let failed text :=
    mkExn Exception
      ("[ERROR] Failed to generate chart from QuickChart.io: " +:+ text) in
  (forall r, quickchart w c = Ret r -> status_ok r = true ->
             List.filter is_file_write (trace run) = [FileWrite filename]
             /\ outcome run = write_file w filename)
  /\ (forall r, quickchart w c = Ret r -> status_ok r = false ->
                never is_file_write (trace run)
                /\ outcome run = Raise (failed (http_error r)))
  /\ (forall e, quickchart w c = Raise e ->
                never is_file_write (trace run)
                /\ outcome run
                   = Raise (if bool_decide (exn_class e = RequestException)
                            then failed (exn_str e) else e)).
Proof.
  unfold chart_request, generate_chart_image, call, raise_for_status, status_ok.
  destruct (map _ data) as [|p ps]; [discriminate|].
  cbv zeta. intros [= <-]. split; [|split].
  - intros r Hq Hs. rewrite Hq. apply negb_true_iff in Hs. simpl.
    destruct (bool_decide _); simpl; rewrite Hs; simpl;
      destruct (write_file w filename) as [[]|e]; split; reflexivity.
  - intros r Hq Hs. rewrite Hq. apply negb_false_iff in Hs. simpl.
    destruct (bool_decide _); simpl; rewrite Hs; split; reflexivity.
  - intros e Hq. rewrite Hq. simpl. unfold except_RequestException.
    destruct (bool_decide _); split; reflexivity.
Qed.

Lemma generate_chart_image_writes_witness :
  outcome (generate_chart_image Hourly.script
             (world_services (Ret too_many_requests) (Ret 7%Z) (Ret 42%Z))
             samples_ascending "chart.png")
  = Raise (mkExn Exception
      "[ERROR] Failed to generate chart from QuickChart.io: 429 Client Error: Too Many Requests").
Proof.
  destruct (chart_request Hourly.script samples_ascending) as [c|] eqn:Hc;
    [|discriminate Hc].
  destruct (generate_chart_image_writes Hourly.script
              (world_services (Ret too_many_requests) (Ret 7%Z) (Ret 42%Z))
              samples_ascending "chart.png" c Hc) as (_ & H & _).
  exact (proj2 (H too_many_requests eq_refl eq_refl)).
Defined.

(** ** Posting with an image *)

Lemma missing_creds_nil env :
  missing_creds env = [] <->
  forall name, In name credential_names ->
               exists v, env !! name = Some v /\ v <> "".
Proof.
  unfold missing_creds. split.
  - intros Hnil name Hin.
    destruct (falsy (env !! name)) eqn:Hf.
    + assert (Hin' : In name (List.filter (fun n => falsy (env !! n))
                                credential_names))
        by (apply filter_In; split; assumption).
      rewrite Hnil in Hin'. destruct Hin'.
    + destruct (env !! name) as [v|]; [|discriminate Hf].
      exists v. split; [reflexivity|]. simpl in Hf.
      apply bool_decide_eq_false in Hf. exact Hf.
  - intros Hall.
    destruct (List.filter _ credential_names) as [|name l] eqn:Hfl;
      [reflexivity|].
    assert (Hin : In name (List.filter (fun n => falsy (env !! n))
                             credential_names))
      by (rewrite Hfl; left; reflexivity).
    apply filter_In in Hin as [Hin Hf].
    destruct (Hall name Hin) as (v & Hv & Hne).
    rewrite Hv in Hf. simpl in Hf. apply bool_decide_eq_true in Hf. congruence.
Qed.

(** X7.  How [post_tweet_with_image] fails once the credentials are
    there.  A failed upload becomes an [Exception] with the
    failed-to-post prefix and no tweet is created; a failed tweet
    creation, after a successful upload, becomes the same kind of
    [Exception]; in both cases the upload was attempted exactly once. *)
Theorem post_tweet_with_image_failures (w : World) text image_path :
  missing_creds (environ w) = [] ->
  let run := post_tweet_with_image w text image_path in
  let failed e :=
    mkExn Exception ("[ERROR] Failed to post tweet with image: " +:+ exn_str e) in
  (forall e, media_upload w image_path = Raise e ->
             outcome run = Raise (failed e)
             /\ List.filter is_publish_call (trace run)
                = [MediaUpload image_path])
  /\ (forall media_id e,
        media_upload w image_path = Ret media_id ->
        create_tweet w text [media_id] = Raise e ->
        outcome run = Raise (failed e)
        /\ List.filter is_publish_call (trace run)
           = [MediaUpload image_path; CreateTweet text [media_id]]).
Proof.
  intros Hm. cbv zeta. unfold post_tweet_with_image, call. rewrite Hm.
  split.
  - intros e Hu. rewrite Hu. split; reflexivity.
  - intros media_id e Hu Hc. rewrite Hu. simpl. rewrite Hc. split; reflexivity.
Qed.

Lemma post_tweet_with_image_failures_witness :
  outcome (post_tweet_with_image
             (world_services (Ret (ok_response None)) (Raise timeout_error)
                (Ret 42%Z)) "text" "chart.png")
  = Raise (mkExn Exception
             "[ERROR] Failed to post tweet with image: Read timed out.").
Proof.
  destruct (post_tweet_with_image_failures
              (world_services (Ret (ok_response None)) (Raise timeout_error)
                 (Ret 42%Z)) "text" "chart.png" eq_refl) as [H _].
  exact (proj1 (H timeout_error eq_refl)).
Defined.

(** X8.  When [post_tweet_with_image] reaches X.  It attempts the upload
    exactly when each of the four credentials is set to a non-empty
    string; it asks for at most one upload and at most one tweet; and a
    tweet it asks for always carries exactly the media id the upload
    returned. *)
Theorem post_tweet_with_image_reaches_x (w : World) text image_path :
  let run := post_tweet_with_image w text image_path in
  (In (MediaUpload image_path) (trace run)
   <-> forall name, In name credential_names ->
                    exists v, environ w !! name = Some v /\ v <> "")
  /\ (count is_create_tweet (trace run) <= count is_media_upload (trace run)
      <= 1)%nat
  /\ (forall posted media_ids,
        In (CreateTweet posted media_ids) (trace run) ->
        posted = text
        /\ exists media_id,
             media_ids = [media_id]
             /\ media_upload w image_path = Ret media_id).
Proof.
  cbv zeta. rewrite <- missing_creds_nil.
  unfold post_tweet_with_image, call.
  destruct (missing_creds (environ w)) as [|name l] eqn:Hm.
  - destruct (media_upload w image_path) as [media_id|e] eqn:Hu; simpl;
      [destruct (create_tweet w text [media_id]); simpl|];
      (split; [split; [reflexivity|intros _; tauto]|]);
      (split; [unfold count; simpl; lia|]);
      intros posted media_ids Hin;
      repeat match goal with
             | H : _ \/ _ |- _ => destruct H as [H|H]
             end;
      try discriminate; try contradiction;
      match goal with
      | H : CreateTweet _ _ = CreateTweet _ _ |- _ => injection H as <- <-
      end; eauto.
  - simpl. split; [split; [|discriminate]|].
    + intros [H|[H|[]]]; discriminate H.
    + split; [unfold count; simpl; lia|].
      intros posted media_ids [H|[H|[]]]; discriminate H.
Qed.

Lemma post_tweet_with_image_reaches_x_witness :
  In (MediaUpload "chart.png")
     (trace (post_tweet_with_image (world_with series_ten full_env)
               "text" "chart.png")).
Proof.
  destruct (post_tweet_with_image_reaches_x (world_with series_ten full_env)
              "text" "chart.png") as [H _].
  apply H. intros name Hin.
  repeat (destruct Hin as [<-|Hin];
          [eexists; split; [reflexivity|discriminate]|]).
  destruct Hin.
Defined.

(** ** Which calls a run can make *)

(** Steps B to F of the weekly script, by how the chart and the post end. *)
Lemma weekly_report_trace w data :
  data <> [] ->
  exists latest diff pct,
    Weekly.price_stats (slice_step 5 data) = ([], Ret (latest, diff, pct))
    /\ let chart := generate_chart_image Weekly.script w (slice_step 5 data)
                      "chart.png" in
       let post := post_tweet_with_image w
                     (Weekly.tweet_text latest diff pct) "chart.png" in
       trace (Weekly.report w data)
       = Print ("[INFO] Downsampled data to "
                +:+ str_of_nat (length (slice_step 5 data)) +:+ " points.")
         :: match outcome chart with
            | Raise _ => trace chart
            | Ret _ =>
                match outcome post with
                | Raise _ =>
                    (trace chart
                     ++ Print "[INFO] Posting tweet with weekly BTC price chart..."
                        :: trace post)%list
                | Ret tweet_id =>
                    (trace chart
                     ++ Print "[INFO] Posting tweet with weekly BTC price chart..."
                        :: trace post
                     ++ [Print "[SUCCESS] Tweet posted successfully!";
                         Print ("[INFO] Tweet ID: " +:+ str_of_Z tweet_id)])%list
                end
            end.
Proof.
  intros Hne.
  destruct (weekly_price_stats_returns (slice_step 5 data)
              (slice_step_nonempty 5 data Hne)) as [[[latest diff] pct] Hs].
  exists latest, diff, pct. split; [exact Hs|]. cbv zeta.
  unfold Weekly.report. rewrite Hs. unfold print at 1. unfold emit.
  rewrite bind_returned, bind_pure. simpl trace. f_equal.
  destruct (generate_chart_image _ _ _ _) as [tc [[]|e]]; [|reflexivity].
  destruct (post_tweet_with_image _ _ _) as [tp [tweet_id|e]]; reflexivity.
Qed.

Lemma try_print_all_caught (body : M unit) :
  try_except except_Exception body (fun e => print (exn_str e))
  = ((trace body ++ caught body)%list, Ret tt).
Proof. apply try_print_all. Qed.

Lemma external_calls_app t1 t2 :
  external_calls (t1 ++ t2) = (external_calls t1 ++ external_calls t2)%list.
Proof. apply omap_app. Qed.

Lemma external_calls_caught body : external_calls (caught body) = [].
Proof. unfold caught. destruct (outcome body); reflexivity. Qed.

Lemma fetch_btc_data_external_calls s w :
  external_calls (trace (fetch_btc_data s w)) = [GetPrices].
Proof.
  unfold fetch_btc_data, call, raise_for_status.
  destruct (coingecko w (days s)) as [r|e]; simpl.
  - destruct (_ && _); simpl; [reflexivity|].
    destruct (json_prices r) as [[|pt pts]|]; reflexivity.
  - destruct (except_RequestException _); reflexivity.
Qed.

Lemma generate_chart_image_external_calls s w data filename :
  exists n,
    external_calls (trace (generate_chart_image s w data filename))
    = take n [GetChart; WriteChart]
    /\ (outcome (generate_chart_image s w data filename) = Ret tt ->
        n = 2%nat).
Proof.
  unfold generate_chart_image, call, raise_for_status.
  destruct (map _ data) as [|p ps];
    [exists 0%nat; split; [reflexivity|discriminate]|].
  cbv zeta. destruct (quickchart w _) as [r|e]; simpl.
  - destruct (bool_decide _); destruct (_ && _); simpl;
      try (exists 1%nat; split; [reflexivity|discriminate]);
      destruct (write_file w filename) as [[]|e]; simpl;
      exists 2%nat; split; reflexivity.
  - destruct (except_RequestException _); simpl;
      exists 1%nat; split; solve [reflexivity|discriminate].
Qed.

Lemma post_tweet_with_image_external_calls w text path :
  exists n,
    external_calls (trace (post_tweet_with_image w text path))
    = take n [UploadMedia; PostTweet].
Proof.
  unfold post_tweet_with_image, call.
  destruct (missing_creds (environ w)); [|exists 0%nat; reflexivity].
  destruct (media_upload w path) as [media_id|e]; simpl;
    [|exists 1%nat; reflexivity].
  destruct (create_tweet w text [media_id]); exists 2%nat; reflexivity.
Qed.

(** The calls of a chart followed, if it succeeded, by a post and some
    printing. *)
Lemma chart_then_post_order s w data filename text (rest : Z -> list Event)
    line t :
  (forall tweet_id, external_calls (rest tweet_id) = []) ->
  let chart := generate_chart_image s w data filename in
  let post := post_tweet_with_image w text filename in
  t = match outcome chart with
      | Raise _ => trace chart
      | Ret _ =>
          match outcome post with
          | Raise _ => (trace chart ++ Print line :: trace post)%list
          | Ret tweet_id =>
              (trace chart ++ Print line :: trace post ++ rest tweet_id)%list
          end
      end ->
  exists n,
    external_calls t = take n [GetChart; WriteChart; UploadMedia; PostTweet].
Proof.
  intros Hrest chart post ->.
  destruct (generate_chart_image_external_calls s w data filename)
    as (n & Hc & Hn).
  destruct (post_tweet_with_image_external_calls w text filename)
    as (m & Hp).
  fold chart in Hc, Hn. fold post in Hp.
  destruct (outcome chart) as [[]|e].
  - rewrite (Hn eq_refl) in Hc.
    assert (Hcalls : forall tail, external_calls tail = [] ->
              exists k, external_calls
                          (trace chart ++ Print line :: trace post ++ tail)
                        = take k [GetChart; WriteChart; UploadMedia; PostTweet]).
    { intros tail Htail. rewrite external_calls_app, Hc.
      change (external_calls (Print line :: ?l)) with (external_calls l).
      rewrite external_calls_app, Hp, Htail, app_nil_r.
      destruct m as [|[|m]];
        [exists 2%nat|exists 3%nat|exists 4%nat]; simpl;
        rewrite ?take_nil; reflexivity. }
    destruct (outcome post) as [tweet_id|e].
    + apply Hcalls, Hrest.
    + rewrite <- (app_nil_r (trace post)). apply Hcalls. reflexivity.
  - rewrite Hc.
    destruct n as [|[|n]];
      [exists 0%nat|exists 1%nat|exists 2%nat]; simpl;
      rewrite ?take_nil; reflexivity.
Qed.

Lemma hourly_after_fetch_order w data :
  let window := select_window data (now_et w - Hourly.hour_us) in
  exists n,
    external_calls
      (trace (if (length window <? 2)%nat then print Hourly.not_enough
              else Hourly.evaluate w window))
    = take n [GetChart; WriteChart; UploadMedia; PostTweet].
Proof.
  intros window.
  destruct (length window <? 2)%nat; [exists 0%nat; reflexivity|].
  destruct (outcome (Hourly.price_stats (sort_by_key fst window)))
    as [[[latest diff] pct]|e] eqn:Hs.
  - rewrite (hourly_evaluate_stats w window latest diff pct Hs).
    destruct (Qlt_bool (Qabs pct) 10); [exists 0%nat; reflexivity|].
    unfold print, emit. rewrite bind_returned. simpl trace.
    change (external_calls (Print ?l :: ?t)) with (external_calls t).
    apply (chart_then_post_order Hourly.script w (sort_by_key fst window)
             "chart.png" (Hourly.tweet_text latest diff pct)
             (fun tweet_id =>
                [Print "[SUCCESS] Tweet posted successfully!";
                 Print ("[INFO] Tweet ID: " +:+ str_of_Z tweet_id)])
             "[INFO] Posting tweet with hourly BTC data...").
    + reflexivity.
    + rewrite hourly_render_and_post_eq.
      destruct (outcome (generate_chart_image _ _ _ _)) as [[]|e];
        [|reflexivity].
      destruct (outcome (post_tweet_with_image _ _ _)); reflexivity.
  - rewrite (hourly_evaluate_raises w window e Hs). exists 0%nat. reflexivity.
Qed.

Lemma caught_run_order s w (body : M unit) rest n :
  trace body = (trace (fetch_btc_data s w) ++ rest)%list ->
  external_calls rest = take n [GetChart; WriteChart; UploadMedia; PostTweet] ->
  let run := try_except except_Exception body (fun e => print (exn_str e)) in
  exists k,
    (1 <= k)%nat
    /\ external_calls (trace run) = take k chart_run_calls
    /\ outcome run = Ret tt.
Proof.
  intros Hbody Hcalls run. exists (S n). split; [lia|].
  unfold run. rewrite try_print_all_caught. split; [|reflexivity].
  simpl trace.
  rewrite external_calls_app, external_calls_caught, app_nil_r.
  rewrite Hbody, external_calls_app, fetch_btc_data_external_calls, Hcalls.
  reflexivity.
Qed.

(** X9.  Which calls the two chart scripts make, and in which order.  In
    every world, the calls of a run of the hourly or of the weekly script
    are an initial part of: the price request, the chart request, the
    write of the chart file, the media upload, the tweet.  So a run
    always sends the price request first, makes each call at most once,
    writes the file only after the chart request, uploads only after the
    file was written and asks for a tweet only after the upload; and it
    returns without raising. *)
Theorem chart_scripts_call_order (w : World) :
  forall run, run = Hourly.main w \/ run = Weekly.main w ->
  exists n,
    (1 <= n)%nat
    /\ external_calls (trace run) = take n chart_run_calls
    /\ outcome run = Ret tt.
Proof.
  intros run [-> | ->].
  - unfold Hourly.main.
    destruct (outcome (fetch_btc_data Hourly.script w)) as [data|e] eqn:Ho.
    + destruct (hourly_after_fetch_order w data) as [n Hn].
      eapply (caught_run_order Hourly.script w _ _ n); [|exact Hn].
      rewrite bind_trace, Ho. reflexivity.
    + eapply (caught_run_order Hourly.script w _ [] 0); [|reflexivity].
      rewrite bind_trace, Ho. reflexivity.
  - unfold Weekly.main.
    destruct (outcome (fetch_btc_data Weekly.script w)) as [data|e] eqn:Ho.
    + destruct (weekly_report_trace w data
                  (fetch_btc_data_nonempty Weekly.script w data Ho))
        as (latest & diff & pct & _ & Ht).
      cbv zeta in Ht.
      destruct (chart_then_post_order Weekly.script w (slice_step 5 data)
                  "chart.png" (Weekly.tweet_text latest diff pct)
                  (fun tweet_id =>
                     [Print "[SUCCESS] Tweet posted successfully!";
                      Print ("[INFO] Tweet ID: " +:+ str_of_Z tweet_id)])
                  "[INFO] Posting tweet with weekly BTC price chart..." _
                  (fun _ => eq_refl) eq_refl) as [n Hn].
      eapply (caught_run_order Weekly.script w _ _ n);
        [rewrite bind_trace, Ho, Ht; reflexivity|].
      change (external_calls (Print ?l :: ?t)) with (external_calls t).
      exact Hn.
    + eapply (caught_run_order Weekly.script w _ [] 0); [|reflexivity].
      rewrite bind_trace, Ho. reflexivity.
Qed.

Lemma chart_scripts_call_order_witness :
  exists n,
    (1 <= n)%nat
    /\ [GetPrices; GetChart] = take n chart_run_calls
    /\ outcome (Hourly.main
                  (world_services (Ret too_many_requests) (Ret 7%Z)
                     (Ret 42%Z))) = Ret tt.
Proof.
  exact (chart_scripts_call_order
           (world_services (Ret too_many_requests) (Ret 7%Z) (Ret 42%Z))
           _ (or_introl eq_refl)).
Defined.

(** ** When the fetch fails *)

Lemma bind_outcome {A B} (m : M A) (k : A -> M B) :
  outcome (bind m k)
  = match outcome m with
    | Ret a => outcome (k a)
    | Raise e => Raise e
    end.
Proof.
  destruct m as [t [a|e]]; simpl; [destruct (k a)|]; reflexivity.
Qed.

Lemma fetch_btc_data_raised_trace s w e :
  outcome (fetch_btc_data s w) = Raise e ->
  trace (fetch_btc_data s w)
  = [Print (fetch_banner s); HttpGet coingecko_url (days s)].
Proof.
  unfold fetch_btc_data, call, raise_for_status.
  destruct (coingecko w (days s)) as [r|e']; simpl.
  - destruct (_ && _); simpl; [reflexivity|].
    destruct (json_prices r) as [[|pt pts]|]; simpl;
      solve [reflexivity | discriminate].
  - destruct (except_RequestException _); reflexivity.
Qed.

(** X10.  A failed fetch ends the run quietly.  When [fetch_btc_data]
    raises, the hourly and the weekly [main] have sent the one price
    request, print the text of the exception as their last line and
    return; no chart is requested, no file written and X is not called. *)
Theorem main_fetch_failure (w : World) (e : Exn) :
  (outcome (fetch_btc_data Hourly.script w) = Raise e ->
   Hourly.main w
   = ([Print (fetch_banner Hourly.script); HttpGet coingecko_url 1;
       Print (exn_str e)], Ret tt))
  /\ (outcome (fetch_btc_data Weekly.script w) = Raise e ->
      Weekly.main w
      = ([Print (fetch_banner Weekly.script); HttpGet coingecko_url 7;
          Print (exn_str e)], Ret tt)).
Proof.
  split; intros Ho.
  - unfold Hourly.main. rewrite try_print_all, bind_trace, bind_outcome.
    rewrite Ho, (fetch_btc_data_raised_trace _ _ _ Ho). reflexivity.
  - unfold Weekly.main. rewrite try_print_all, bind_trace, bind_outcome.
    rewrite Ho, (fetch_btc_data_raised_trace _ _ _ Ho). reflexivity.
Qed.

Lemma main_fetch_failure_witness :
  Hourly.main (world_fetch (Raise timeout_error))
  = ([Print (fetch_banner Hourly.script); HttpGet coingecko_url 1;
      Print "[ERROR] Failed to fetch data from CoinGecko: Read timed out."],
     Ret tt).
Proof.
  destruct (main_fetch_failure (world_fetch (Raise timeout_error))
              (mkExn Exception
                 "[ERROR] Failed to fetch data from CoinGecko: Read timed out."))
    as [H _].
  exact (H eq_refl).
Defined.

(** ** Moves of ten percent and more *)

Lemma Qabs_not_lt p k :
  ~ (Qabs p < k)%Q -> (p <= - k \/ k <= p)%Q.
Proof.
  apply (Qabs_case p (fun a => ~ (a < k)%Q -> (p <= - k \/ k <= p)%Q)).
  - intros _ H. right. apply Qnot_lt_le, H.
  - intros _ H. left. apply Qnot_lt_le in H. lra.
Qed.

Lemma Qabs_eq_cases p k : (p == k \/ p == - k)%Q -> (Qabs p == Qabs k)%Q.
Proof.
  intros [H|H]; rewrite H; [reflexivity|apply Qabs_opp].
Qed.

Lemma in_band_large m p :
  (p <= - 10 \/ 10 <= p)%Q -> in_band m p ->
  (2 <= Z.abs (tier m))%Z
  /\ (Z.abs (tier m) = 2%Z -> (p == 10 \/ p == - 10)%Q).
Proof.
  intros Hp. destruct m; simpl; intros Hm; destruct_and?;
    (split; [first [lia | exfalso; lra]|intros Ht; try lia]).
  - left. destruct Hp; lra.
  - right. destruct Hp; lra.
Qed.

(** X11.  Hourly script, window of at least two samples, percentage
    computed and at least 10 in absolute value: the run is not skipped, it
    prints the proceeding line and goes on to chart and post.  The marker
    of such a run is never the flat one nor an arrow of the 1-to-5 band,
    and it is a marker of the 5-to-10 band only for a move of exactly
    10%. *)
Theorem hourly_large_move_proceeds w tf data latest diff pct :
  fetch_btc_data Hourly.script w = (tf, Ret data) ->
  let window := select_window data (now_et w - Hourly.hour_us) in
  let proceed :=
    Hourly.render_and_post w (sort_by_key fst window) latest diff pct in
  (2 <= length window)%nat ->
  outcome (Hourly.price_stats (sort_by_key fst window))
    = Ret (latest, diff, pct) ->
  ~ (Qabs pct < 10)%Q ->
  Hourly.main w
  = ((tf ++ Print ("[INFO] Price moved " +:+ format_2f false pct
                   +:+ "% in the last hour. Proceeding with tweet...")
         :: trace proceed ++ caught proceed)%list, Ret tt)
  /\ (2 <= Z.abs (tier (get_movement_emoji pct)))%Z
  /\ (Z.abs (tier (get_movement_emoji pct)) = 2%Z -> (Qabs pct == 10)%Q).
Proof.
  intros Hf window proceed Hlen Hs Hge.
  split; [|].
  - rewrite (hourly_main_fetched w tf data Hf). fold window.
    apply Nat.ltb_ge in Hlen. rewrite Hlen.
    rewrite (hourly_evaluate_stats w window latest diff pct Hs).
    assert (Hb : Qlt_bool (Qabs pct) 10 = false).
    { apply Qlt_bool_false, Qnot_lt_le, Hge. }
    rewrite Hb. fold proceed. unfold print, emit.
    rewrite bind_returned. unfold caught. simpl. reflexivity.
  - destruct (in_band_large (get_movement_emoji pct) pct
                (Qabs_not_lt pct 10 Hge) (get_movement_emoji_in_band pct))
      as [Htier Hten].
    split; [exact Htier|]. intros Ht.
    apply (Qabs_eq_cases pct 10), Hten, Ht.
Qed.

Lemma hourly_large_move_proceeds_witness :
  (2 <= Z.abs (tier (get_movement_emoji ((112 - 100) / 100 * 100))))%Z.
Proof.
  edestruct (hourly_large_move_proceeds (world_with series_rising full_env))
    as (_ & Htier & _);
    [reflexivity | apply le_n | reflexivity | | exact Htier].
  vm_compute. intros H. discriminate H.
Defined.

(** ** Sorting the window *)









(** ** Downsampling in the weekly script *)

Lemma stride_from_lookup {A} (k skip i : nat) (l : list A) :
  (skip <= k)%nat ->
  stride_from (S k) skip l !! i = l !! (skip + i * S k)%nat.
Proof.
  revert skip i. induction l as [|x l IH]; intros skip i Hskip.
  - rewrite !lookup_nil. reflexivity.
  - destruct skip as [|skip]; simpl stride_from.
    + destruct i as [|i]; [reflexivity|].
      simpl. rewrite (IH k i) by lia. reflexivity.
    + rewrite (IH skip i) by lia. reflexivity.
Qed.

Lemma last_is_lookup {A} (a : A) l :
  (a :: l) !! length l = Some (List.last l a).
Proof.
  revert a. induction l as [|c l IH]; intros a; [reflexivity|].
  rewrite last_cons_default. simpl. apply IH.
Qed.

(** X13.  What [btc_data[::step]] keeps.  For a positive step the slice
    holds, at position [i], the element the list holds at position
    [i * step], starting with the first; it has an [i]-th element exactly
    when the list has an [i * step]-th one; so the weekly script, with
    step 5, charts every fifth fetched sample. *)
Theorem slice_step_lookup {A} (k i : nat) (l : list A) :
  slice_step (S k) l !! i = l !! (i * S k)%nat
  /\ ((i < length (slice_step (S k) l))%nat <-> (i * S k < length l)%nat).
Proof.
  assert (H : slice_step (S k) l !! i = l !! (i * S k)%nat).
  { unfold slice_step. rewrite stride_from_lookup by lia. reflexivity. }
  split; [exact H|].
  rewrite <- !lookup_lt_is_Some, H. reflexivity.
Qed.

(** X14.  Which prices the weekly change is computed from.  After a
    fetch of [n] samples, [n] positive, the earliest price is that of the
    first fetched sample and the latest price that of the sample at index
    [5 * ((n - 1) / 5)], the last one the slice keeps; the computation
    returns them with their difference and with the percentage, which is
    0 when the earliest price is zero. *)
Theorem weekly_stats_positions (data : list Sample) :
  data <> [] ->
  exists first last,
    data !! 0%nat = Some first
    /\ data !! (5 * ((length data - 1) / 5))%nat = Some last
    /\ Weekly.price_stats (slice_step 5 data)
       = ret (snd last, (snd last - snd first)%Q,
              if Qeq_bool (snd first) 0 then 0%Q
              else ((snd last - snd first) / snd first * 100)%Q).
Proof.
  intros Hne.
  destruct (slice_step 5 data) as [|a l] eqn:Hslice.
  { exfalso. exact (slice_step_nonempty 5 data Hne Hslice). }
  assert (Hfirst : data !! 0%nat = Some a).
  { destruct (slice_step_lookup 4 0 data) as [H _].
    rewrite Hslice in H. simpl in H. symmetry. exact H. }
  assert (Hlast : data !! (length l * 5)%nat = Some (List.last l a)).
  { destruct (slice_step_lookup 4 (length l) data) as [H _].
    rewrite Hslice, last_is_lookup in H. symmetry. exact H. }
  assert (Hidx : (5 * ((length data - 1) / 5) = length l * 5)%nat).
  { destruct (slice_step_lookup 4 (length l) data) as [_ Hin].
    destruct (slice_step_lookup 4 (S (length l)) data) as [_ Hout].
    rewrite Hslice in Hin, Hout. simpl length in Hin, Hout.
    assert (Hlo : (length l * 5 < length data)%nat) by (apply Hin; lia).
    assert (Hhi : (length data <= S (length l) * 5)%nat).
    { destruct (Nat.le_gt_cases (length data) (S (length l) * 5)) as [H|H];
        [exact H|]. apply Hout in H. lia. }
    assert (Hq : ((length data - 1) / 5 = length l)%nat).
    { symmetry.
      apply (Nat.div_unique (length data - 1) 5 (length l)
               (length data - 1 - 5 * length l)); lia. }
    rewrite Hq. lia. }
  exists a, (List.last l a).
  split; [exact Hfirst|]. split; [rewrite Hidx; exact Hlast|].
  unfold Weekly.price_stats. rewrite last_price_cons. simpl.
  destruct (Qeq_bool (snd a) 0) eqn:E; [reflexivity|].
  simpl. unfold py_div. rewrite E. reflexivity.
Qed.

Lemma weekly_stats_positions_witness :
  exists first last : Sample,
    (map (fun pt : Z * Q => ((fst pt * 1000)%Z, snd pt)) series_week_from_zero)
      !! 5%nat = Some last
    /\ outcome (Weekly.price_stats
                  (slice_step 5
                     (map (fun pt : Z * Q => ((fst pt * 1000)%Z, snd pt))
                          series_week_from_zero)))
       = Ret (snd last, (snd last - snd first)%Q, 0%Q).
Proof.
  destruct (weekly_stats_positions
              (map (fun pt : Z * Q => ((fst pt * 1000)%Z, snd pt))
                   series_week_from_zero))
    as (first & last & Hf & Hl & Hs); [discriminate|].
  exists first, last. split; [exact Hl|].
  vm_compute in Hf. injection Hf as <-. exact (f_equal outcome Hs).
Defined.

(** ** What a digest computes for a ticker *)

Lemma tail2_app {A} (earlier : list A) a b :
  Digest.tail2 ((earlier ++ [a; b])%list) = [a; b].
Proof.
  unfold Digest.tail2. rewrite length_app. simpl.
  replace (length earlier + 2 - 2)%nat with (length earlier) by lia.
  apply drop_app_length.
Qed.

Lemma tail2_long {A} (l : list A) :
  (2 <= length l)%nat -> exists earlier a b, l = (earlier ++ [a; b])%list.
Proof.
  intros Hlen.
  destruct (Digest.tail2 l) as [|a [|b [|c rest]]] eqn:Ht;
    pose proof (f_equal length Ht) as Hl;
    unfold Digest.tail2 in Hl; rewrite length_drop in Hl; simpl in Hl;
    try lia.
  exists (take (length l - 2) l), a, b.
  rewrite <- Ht. unfold Digest.tail2. symmetry. apply take_drop.
Qed.

Lemma ticker_performance_is_Some (df : gmap string (list (option Q)))
    (ticker : string) :
  is_Some (Digest.ticker_performance df ticker)
  <-> exists rows, df !! ticker = Some rows
                   /\ (2 <= length (Digest.dropna rows))%nat.
Proof.
  unfold Digest.ticker_performance. split.
  - intros [info Hinfo]. destruct (df !! ticker) as [rows|]; [|discriminate].
    exists rows. split; [reflexivity|].
    destruct (Nat.le_gt_cases 2 (length (Digest.dropna rows))) as [H|H];
      [exact H|].
    unfold Digest.tail2 in Hinfo.
    destruct (Digest.dropna rows) as [|a [|b l]]; simpl in *;
      solve [discriminate | lia].
  - intros (rows & -> & Hlen).
    destruct (tail2_long _ Hlen) as (earlier & a & b & ->).
    rewrite tail2_app. eexists. reflexivity.
Qed.

(** X15.  Which rows a digest line comes from.  When the complete rows
    of a ticker end with closes [a] then [b], whatever rows with a NaN
    lie between or after them and whatever comes before, the entry of
    the ticker has close [b] and, for [a] not zero, percentage
    [(b - a) / a * 100]. *)
Theorem digest_uses_last_two_rows (df : gmap string (list (option Q)))
    (ticker : string) rows earlier (a b : Q) :
  df !! ticker = Some rows ->
  Digest.dropna rows = (earlier ++ [a; b])%list ->
  exists info,
    Digest.ticker_performance df ticker = Some info
    /\ Digest.close info = b
    /\ (~ (a == 0)%Q ->
        Digest.pct_change info = Digest.Fin ((b - a) / a * 100)).
Proof.
  intros Hrows Hdrop. unfold Digest.ticker_performance.
  rewrite Hrows, Hdrop, tail2_app. eexists. split; [reflexivity|].
  simpl. split; [reflexivity|]. unfold Digest.np_div.
  intros Hnz. destruct (Qeq_bool a 0) eqn:E; [|reflexivity].
  apply Qeq_bool_iff in E. contradiction.
Qed.

Lemma digest_uses_last_two_rows_witness :
  exists info,
    Digest.ticker_performance frame_mixed "AMZN" = Some info
    /\ Digest.close info = 9%Q
    /\ Digest.pct_change info = Digest.Fin ((9 - 10) / 10 * 100).
Proof.
  destruct (digest_uses_last_two_rows frame_mixed "AMZN"
              [None; Some 10%Q; Some 9%Q] [] 10 9 eq_refl eq_refl)
    as (info & Hi & Hc & Hp).
  exists info. split; [exact Hi|]. split; [exact Hc|].
  apply Hp. intros H. discriminate H.
Defined.

(** X16.  Which tickers get an entry.  The dict a digest's fetch function
    builds has an entry for a ticker exactly when the ticker was
    requested and the frame holds at least two complete rows for it, and
    the entry is then what the loop body computes for that ticker; a
    ticker listed twice or a frame with other tickers changes nothing. *)
Theorem digest_entry_iff (df : gmap string (list (option Q)))
    (tickers : list string) (ticker : string) :
  (is_Some (Digest.fill_performance df tickers !! ticker)
   <-> In ticker tickers
       /\ exists rows, df !! ticker = Some rows
                       /\ (2 <= length (Digest.dropna rows))%nat)
  /\ (forall info,
        Digest.fill_performance df tickers !! ticker = Some info ->
        Digest.ticker_performance df ticker = Some info).
Proof.
  rewrite fill_performance_lookup. split.
  - rewrite <- ticker_performance_is_Some, <- list_elem_of_In.
    destruct (decide (ticker ∈ tickers)) as [Hin|Hnin].
    + tauto.
    + split; [intros [x Hx]; discriminate Hx|tauto].
  - intros info. destruct (decide _); [tauto|discriminate].
Qed.

Lemma digest_entry_iff_witness :
  Digest.fill_performance frame_mixed Digest.favorites !! "QQQ" = None.
Proof.
  destruct (digest_entry_iff frame_mixed Digest.favorites "QQQ") as [H _].
  destruct (Digest.fill_performance frame_mixed Digest.favorites !! "QQQ")
    as [info|] eqn:E; [|reflexivity].
  exfalso. destruct (proj1 H (ex_intro _ info eq_refl))
    as (_ & rows & Hrows & Hlen).
  vm_compute in Hrows. injection Hrows as <-.
  vm_compute in Hlen. lia.
Defined.

(** ** Which calls a digest can make *)

Lemma digest_post_tweet_quiet w text p :
  (forall l, p (Print l) = false) -> p LoadDotenv = false ->
  (forall posted ids, p (CreateTweet posted ids) = false) ->
  count p (trace (Digest.post_tweet w text)) = 0%nat.
Proof.
  intros Hp Hl Hc. unfold Digest.post_tweet, call, count.
  destruct (missing_creds (Digest.environ w)); simpl.
  - destruct (Digest.create_tweet w text); simpl; rewrite ?Hp, ?Hl, ?Hc;
      reflexivity.
  - rewrite Hp, Hl. reflexivity.
Qed.

Lemma digest_post_tweet_at_most_one w text :
  (count is_create_tweet (trace (Digest.post_tweet w text)) <= 1)%nat.
Proof.
  unfold count. rewrite digest_post_tweet_calls.
  destruct (missing_creds (Digest.environ w)); simpl; lia.
Qed.

(** X17.  Which calls a digest can make.  In every world a digest run
    asks yfinance for the configured tickers exactly once, with the
    script's period and interval, as its first action; it asks X for at
    most one tweet; it never requests prices from CoinGecko or a chart,
    never writes a file and never uploads media; and it returns normally
    exactly when the download returned, whatever X then answers. *)
Theorem digest_call_discipline (s : Digest.Script) (w : Digest.World) :
  let run := Digest.main s w in
  let download :=
    YfDownload (Digest.TICKERS s) (Digest.period s) (Digest.interval s) in
  (exists rest, trace run = download :: rest /\ never is_download rest)
  /\ (count is_create_tweet (trace run) <= 1)%nat
  /\ never is_http_get (trace run) /\ never is_render_call (trace run)
  /\ never is_file_write (trace run) /\ never is_media_upload (trace run)
  /\ outcome run
     = match Digest.yf_download w (Digest.TICKERS s) (Digest.period s)
               (Digest.interval s) with
       | Ret _ => Ret tt
       | Raise e => Raise e
       end.
Proof.
  cbv zeta.
  destruct (Digest.yf_download w (Digest.TICKERS s) (Digest.period s)
              (Digest.interval s)) as [df|e] eqn:Hd.
  2:{ rewrite (digest_main_download_raises s w e Hd). simpl.
      split; [eexists; split; reflexivity|].
      unfold count, never. simpl. repeat split; lia. }
  rewrite (digest_main_downloaded s w df Hd).
  destruct (decide _) as [Hempty|Hne].
  { simpl. split; [eexists; split; reflexivity|].
    unfold count, never. simpl. repeat split; lia. }
  set (text := Digest.tweet_text s _).
  pose proof (digest_post_tweet_at_most_one w text) as Hone.
  pose proof (fun p Hp Hl Hc =>
                proj2 (never_count p _)
                  (digest_post_tweet_quiet w text p Hp Hl Hc)) as Hquiet.
  pose proof (Hquiet is_download (fun _ => eq_refl) eq_refl
                (fun _ _ => eq_refl)) as H1.
  pose proof (Hquiet is_http_get (fun _ => eq_refl) eq_refl
                (fun _ _ => eq_refl)) as H2.
  pose proof (Hquiet is_render_call (fun _ => eq_refl) eq_refl
                (fun _ _ => eq_refl)) as H3.
  pose proof (Hquiet is_file_write (fun _ => eq_refl) eq_refl
                (fun _ _ => eq_refl)) as H4.
  pose proof (Hquiet is_media_upload (fun _ => eq_refl) eq_refl
                (fun _ _ => eq_refl)) as H5.
  clear Hquiet.
  destruct (Digest.post_tweet w text) as [t [tweet_id|e]];
    simpl in Hone, H1, H2, H3, H4, H5; simpl trace; simpl outcome.
  all: split; [eexists; split; [reflexivity|];
               apply never_app; split; [exact H1|reflexivity]|].
  all: split; [change (count is_create_tweet (YfDownload ?a ?b ?c :: ?l))
                 with (count is_create_tweet l);
               rewrite count_app; unfold count at 2; simpl; lia|].
  all: repeat split;
    match goal with
    | |- never ?p (YfDownload ?a ?b ?c :: ?l) =>
        change (never p (YfDownload a b c :: l)) with (never p l);
        apply never_app; split; [assumption|reflexivity]
    end.
Qed.

(** X18.  A digest whose tweet is refused.  With the four credentials
    set, when X answers the one tweet request with an exception, the post
    function raises a [RuntimeError] whose text is the failed-to-post
    prefix followed by that of the exception, and it has sent that one
    request only; a digest run that got that far prints this text as its
    last line and returns. *)
Theorem digest_post_failure (w : Digest.World) text e :
  missing_creds (Digest.environ w) = [] ->
  Digest.create_tweet w text = Raise e ->
  let failed :=
    mkExn RuntimeError ("[ERROR] Failed to post tweet: " +:+ exn_str e) in
  Digest.post_tweet w text
  = ([Print "[INFO] Attempting to post a text-only tweet..."; LoadDotenv;
      Print "[INFO] Creating tweet with v2 client...";
      CreateTweet text []], Raise failed)
  /\ forall s df,
       Digest.yf_download w (Digest.TICKERS s) (Digest.period s)
         (Digest.interval s) = Ret df ->
       Digest.fill_performance df (Digest.TICKERS s) <> ∅ ->
       text = Digest.tweet_text s
                (Digest.build_lines s
                   (Digest.fill_performance df (Digest.TICKERS s))) ->
       Digest.main s w
       = ([YfDownload (Digest.TICKERS s) (Digest.period s) (Digest.interval s);
           Print "[INFO] Attempting to post a text-only tweet..."; LoadDotenv;
           Print "[INFO] Creating tweet with v2 client...";
           CreateTweet text []; Print (exn_str failed)], Ret tt).
Proof.
  intros Hm Hc failed.
  assert (Hpost : Digest.post_tweet w text
                  = ([Print "[INFO] Attempting to post a text-only tweet...";
                      LoadDotenv;
                      Print "[INFO] Creating tweet with v2 client...";
                      CreateTweet text []], Raise failed)).
  { unfold Digest.post_tweet, call. rewrite Hm. simpl. rewrite Hc. reflexivity. }
  split; [exact Hpost|].
  intros s df Hd Hne ->.
  rewrite (digest_main_downloaded s w df Hd).
  rewrite decide_False by exact Hne. rewrite Hpost. reflexivity.
Qed.

Lemma digest_post_failure_witness :
  outcome (Digest.post_tweet
             (Digest.mkWorld (fun _ _ _ => Ret frame_mixed) full_env
                (fun _ => Raise timeout_error)) "text")
  = Raise (mkExn RuntimeError "[ERROR] Failed to post tweet: Read timed out.").
Proof.
  destruct (digest_post_failure
              (Digest.mkWorld (fun _ _ _ => Ret frame_mixed) full_env
                 (fun _ => Raise timeout_error)) "text" timeout_error
              eq_refl eq_refl) as [H _].
  rewrite H. reflexivity.
Defined.

(** ** [post_hello_world.py] *)

Lemma all_credentials_true env :
  HelloWorld.all_credentials env = true <-> missing_creds env = [].
Proof.
  unfold HelloWorld.all_credentials, missing_creds.
  induction credential_names as [|name names IH]; simpl; [tauto|].
  destruct (falsy (env !! name)); simpl; [split; discriminate|exact IH].
Qed.

(** X19.  The hello-world script.  It posts exactly when each of the four
    credentials is set to a non-empty string.  When one is not, [main]
    raises a [ValueError] that names no credential, outside any [try],
    before X is called.  When all are, it asks X once for the tweet
    "Hello World!" and returns whatever X answers: an exception from X,
    or an answer without an id, is printed after "Error posting tweet:". *)
Theorem hello_world_main (w : HelloWorld.World) :
  (HelloWorld.all_credentials (HelloWorld.environ w) = true
   <-> forall name, In name credential_names ->
                    exists v, HelloWorld.environ w !! name = Some v /\ v <> "")
  /\ (HelloWorld.all_credentials (HelloWorld.environ w) = false ->
      HelloWorld.main w
      = ([LoadDotenv],
         Raise (mkExn ValueError
                  "Missing one or more required credentials in .env")))
  /\ (HelloWorld.all_credentials (HelloWorld.environ w) = true ->
      outcome (HelloWorld.main w) = Ret tt
      /\ List.filter is_network_call (trace (HelloWorld.main w))
         = [CreateTweet "Hello World!" []]
      /\ (forall e, HelloWorld.create_tweet w "Hello World!" = Raise e ->
                    HelloWorld.main w
                    = ([LoadDotenv; CreateTweet "Hello World!" [];
                        Print ("Error posting tweet: " +:+ exn_str e)],
                       Ret tt))
      /\ (forall tweet_id,
            HelloWorld.create_tweet w "Hello World!" = Ret (Some tweet_id) ->
            HelloWorld.main w
            = ([LoadDotenv; CreateTweet "Hello World!" [];
                Print "Tweet posted successfully!";
                Print ("Tweet ID: " +:+ str_of_Z tweet_id)], Ret tt))).
Proof.
  split; [rewrite all_credentials_true; apply missing_creds_nil|].
  unfold HelloWorld.main, call. split; intros Hall; rewrite Hall.
  - reflexivity.
  - destruct (HelloWorld.create_tweet w "Hello World!") as [[tweet_id|]|e];
      simpl; repeat split; intros; try discriminate; try reflexivity;
      congruence.
Qed.

Lemma hello_world_main_witness :
  HelloWorld.main (HelloWorld.mkWorld partial_env (fun _ => Ret (Some 1%Z)))
  = ([LoadDotenv],
     Raise (mkExn ValueError
              "Missing one or more required credentials in .env")).
Proof.
  destruct (hello_world_main
              (HelloWorld.mkWorld partial_env (fun _ => Ret (Some 1%Z))))
    as (_ & H & _).
  exact (H eq_refl).
Defined.

(** ** The weekly script, end to end *)

Lemma last_app_cons {A} (l1 : list A) x l2 d :
  List.last (l1 ++ x :: l2)%list d = List.last (x :: l2) d.
Proof.
  induction l1 as [|y l1 IH]; [reflexivity|].
  rewrite <- app_comm_cons.
  destruct (l1 ++ x :: l2)%list as [|z l] eqn:E;
    [destruct l1; discriminate E|].
  change (List.last (y :: z :: l) d) with (List.last (z :: l) d).
  exact IH.
Qed.

(** X20.  A weekly run in which everything answers.  When the fetch
    returns, the chart of the downsampled series is produced, the four
    credentials are set and X accepts the upload and the tweet, the run
    asks X for exactly one tweet, attached to the uploaded chart, whose
    text is composed from the statistics of the downsampled series, and
    it prints the id X returned as its last line. *)
Theorem weekly_success w tf data media_id tweet_id :
  fetch_btc_data Weekly.script w = (tf, Ret data) ->
  outcome (generate_chart_image Weekly.script w (slice_step 5 data) "chart.png")
    = Ret tt ->
  missing_creds (environ w) = [] ->
  media_upload w "chart.png" = Ret media_id ->
  (forall text, create_tweet w text [media_id] = Ret tweet_id) ->
  exists latest diff pct,
    Weekly.price_stats (slice_step 5 data) = ret (latest, diff, pct)
    /\ List.filter is_create_tweet (trace (Weekly.main w))
       = [CreateTweet (Weekly.tweet_text latest diff pct) [media_id]]
    /\ List.last (trace (Weekly.main w)) LoadDotenv
       = Print ("[INFO] Tweet ID: " +:+ str_of_Z tweet_id)
    /\ outcome (Weekly.main w) = Ret tt.
Proof.
  intros Hf Hc Hm Hu Ht.
  assert (Hne : data <> []).
  { apply (fetch_btc_data_nonempty Weekly.script w). rewrite Hf. reflexivity. }
  destruct (weekly_report_trace w data Hne) as (latest & diff & pct & Hs & Hr).
  exists latest, diff, pct. split; [exact Hs|].
  cbv zeta in Hr.
  pose proof (post_tweet_with_image_ok w (Weekly.tweet_text latest diff pct)
                "chart.png" media_id tweet_id Hm Hu (Ht _)) as Hok.
  rewrite Hc, Hok in Hr. simpl outcome in Hr. simpl trace in Hr.
  assert (Hcaught : caught (Weekly.report w data) = []).
  { unfold caught, Weekly.report. rewrite Hs. unfold print at 1. unfold emit.
    rewrite bind_returned. simpl outcome. rewrite Hok.
    destruct (generate_chart_image _ _ _ _) as [tc [[]|e]];
      [reflexivity|discriminate Hc]. }
  rewrite (weekly_main_fetched w tf data Hf), Hcaught, Hr, app_nil_r.
  simpl trace. simpl outcome.
  pose proof (fetch_btc_data_no_publish Weekly.script w) as Hfp.
  rewrite Hf in Hfp. simpl in Hfp. apply never_create_of_never_publish in Hfp.
  pose proof (generate_chart_image_no_publish Weekly.script w
                (slice_step 5 data) "chart.png") as Hcp.
  apply never_create_of_never_publish in Hcp.
  unfold never in Hfp, Hcp.
  split; [|split; [|reflexivity]].
  - rewrite List.filter_app, Hfp. simpl.
    rewrite List.filter_app, Hcp. reflexivity.
  - rewrite last_app_cons, app_comm_cons, last_app_cons. reflexivity.
Qed.

Lemma weekly_success_witness :
  List.last (trace (Weekly.main (world_with series_week_from_zero full_env)))
            LoadDotenv
  = Print "[INFO] Tweet ID: 42".
Proof.
  edestruct (weekly_success (world_with series_week_from_zero full_env))
    as (latest & diff & pct & _ & _ & Hlast & _);
    [reflexivity | reflexivity | reflexivity | reflexivity
    | intros text; reflexivity | exact Hlast].
Defined.

(** ** Rounding the plotted prices *)




